(** * OpenLP MCP plugin: the cross-thread call bridge and its handlers

    A shallow embedding of [src/worker.py], [src/tools.py],
    [src/url_utils.py] and [src/conversion.py].

    - [Py]: the Python built-ins the plugin relies on (strings, [pathlib],
      [urlparse], [sorted], [str.join]).
    - [Host]: the interface of the host application (OpenLP, Qt, the file
      system and the network), whose code is not part of the plugin.  Every
      collaborator call is an element of [Query] (a read) or [Cmd] (a call
      that may change the host); both may raise.
    - [MCPWorker]: the slots of the worker object, written in a state and
      exception monad over the worker's own fields, the host and a trace of
      the collaborator calls and of the [operation_completed] emissions.
    - [MCPToolsManager]: the tool functions, as programs of the server
      thread; [Bridge] interleaves them with the privileged thread.
    - [UrlUtils]: the names [url_utils.py] chooses for downloads;
      [Fallback]: the pages the python-pptx fallback of [conversion.py]
      draws.

    Strings are sequences of ASCII characters; logging calls are left out
    (they neither raise nor change any state the plugin reads). *)

From Stdlib Require Import Ascii String ZArith Lia.
From stdpp Require Import base option list strings numbers pretty.

Open Scope Z_scope.
Open Scope string_scope.

(** ** Python built-ins *)

Module Py.

(** [str(e)] of a caught exception is all the plugin ever uses of it. *)
Inductive Outcome (A : Type) : Type :=
| Ok (a : A)
| Raise (e : string).
Arguments Ok {A} a.
Arguments Raise {A} e.

(** The values that travel in dictionaries and result payloads. *)
Inductive Val : Type :=
| VNone
| VBool (b : bool)
| VInt (z : Z)
| VStr (s : string).

(** A [dict] with string keys, in insertion order. *)
Definition Dict : Type := list (string * Val).

Definition keys (d : Dict) : list string := d.*1.

(** [d.get(k)] *)
Fixpoint dict_get (d : Dict) (k : string) : option Val :=
  match d with
  | [] => None
  | (k', v) :: d' => if String.eqb k' k then Some v else dict_get d' k
  end.

(** [d[k] = v] *)
Fixpoint dict_set (d : Dict) (k : string) (v : Val) : Dict :=
  match d with
  | [] => [(k, v)]
  | (k', v') :: d' =>
      if String.eqb k' k then (k, v) :: d' else (k', v') :: dict_set d' k v
  end.

(** [str(z)] for an [int]. *)
Definition str_of_int (z : Z) : string := pretty z.

(** [str(v)], the conversion an f-string applies. *)
Definition str (v : Val) : string :=
  match v with
  | VNone => "None"
  | VBool true => "True"
  | VBool false => "False"
  | VInt z => str_of_int z
  | VStr s => s
  end.

(** [bool(v)], the truth value used by [if v] and [v or d]. *)
Definition truthy (v : Val) : bool :=
  match v with
  | VNone => false
  | VBool b => b
  | VInt z => negb (Z.eqb z 0)
  | VStr s => negb (String.eqb s EmptyString)
  end.

(** [s or d] for an optional string argument. *)
Definition str_or (s : option string) (d : string) : string :=
  match s with
  | Some x => if String.eqb x EmptyString then d else x
  | None => d
  end.

Definition nonempty (s : string) : bool := negb (String.eqb s EmptyString).

(** [x in xs] for a list, tuple or set of strings. *)
Definition mem (x : string) (xs : list string) : bool :=
  bool_decide (x ∈ xs).

(** [str.lower()] on ASCII text. *)
Definition lower_char (c : ascii) : ascii :=
  let n := nat_of_ascii c in
  if (Nat.leb 65 n && Nat.leb n 90)%bool then ascii_of_nat (n + 32) else c.

Fixpoint lower (s : string) : string :=
  match s with
  | EmptyString => EmptyString
  | String c s' => String (lower_char c) (lower s')
  end.

(** [str.capitalize()]: first character upper-cased, the rest lowered. *)
Definition upper_char (c : ascii) : ascii :=
  let n := nat_of_ascii c in
  if (Nat.leb 97 n && Nat.leb n 122)%bool then ascii_of_nat (n - 32) else c.

Definition capitalize (s : string) : string :=
  match s with
  | EmptyString => EmptyString
  | String c s' => String (upper_char c) (lower s')
  end.

(** [sep.join(xs)] *)
Definition join (sep : string) (xs : list string) : string :=
  String.concat sep xs.

(** [sorted(xs)] for strings: ascending code-point order. *)
Fixpoint insert_sorted (x : string) (xs : list string) : list string :=
  match xs with
  | [] => [x]
  | y :: ys => if String.leb x y then x :: xs else y :: insert_sorted x ys
  end.

Definition sorted (xs : list string) : list string :=
  foldr insert_sorted [] xs.

(** [needle in s] for strings. *)
Fixpoint contains (needle s : string) : bool :=
  if String.prefix needle s then true
  else match s with
       | EmptyString => false
       | String _ s' => contains needle s'
       end.

(** [s.split(sep)] for a non-empty separator: [skip] counts the
    characters of a separator that are still to be passed over. *)
Fixpoint split_aux (sep : string) (skip : nat) (s : string) : list string :=
  match s with
  | EmptyString => [EmptyString]
  | String c s' =>
      match skip with
      | S k => split_aux sep k s'
      | O =>
          if String.prefix sep s
          then EmptyString :: split_aux sep (String.length sep - 1) s'
          else match split_aux sep 0 s' with
               | [] => [String c EmptyString]
               | x :: xs => String c x :: xs
               end
      end
  end.

Definition split (sep s : string) : list string := split_aux sep 0 s.

(** [s.rfind(c)] *)
Fixpoint rfind (c : ascii) (s : string) : option nat :=
  match s with
  | EmptyString => None
  | String a s' =>
      match rfind c s' with
      | Some i => Some (S i)
      | None => if Ascii.eqb a c then Some O else None
      end
  end.

(** [s.find(c)] *)
Fixpoint find (c : ascii) (s : string) : option nat :=
  match s with
  | EmptyString => None
  | String a s' =>
      if Ascii.eqb a c then Some O else S <$> find c s'
  end.

Fixpoint forallb_str (p : ascii → bool) (s : string) : bool :=
  match s with
  | EmptyString => true
  | String c s' => p c && forallb_str p s'
  end.

Definition is_space (c : ascii) : bool :=
  let n := nat_of_ascii c in
  (Nat.leb 9 n && Nat.leb n 13 || Nat.leb 28 n && Nat.leb n 32)%bool.

Fixpoint lstrip (s : string) : string :=
  match s with
  | String c s' => if is_space c then lstrip s' else s
  | EmptyString => EmptyString
  end.

Fixpoint rstrip (s : string) : string :=
  match s with
  | EmptyString => EmptyString
  | String c s' =>
      match rstrip s' with
      | EmptyString => if is_space c then EmptyString else String c EmptyString
      | r => String c r
      end
  end.

(** [s.strip()] *)
Definition strip (s : string) : string := rstrip (lstrip s).

Definition nl : string := String (ascii_of_nat 10) EmptyString.

(** *** [pathlib] (POSIX flavour): a path is its string *)

Definition Path : Type := string.

Definition is_part (c : string) : bool :=
  (nonempty c && negb (String.eqb c "."))%bool.

(** The components of a path: empty components and [.] are dropped. *)
Definition parts (p : Path) : list string := filter is_part (split "/" p).

(** [p.name]: the final component. *)
Definition path_name (p : Path) : string := List.last (parts p) EmptyString.

(** The index at which the suffix of a file name starts:
    [i = name.rfind('.')], kept when [0 < i < len(name) - 1]. *)
Definition suffix_at (name : string) : option nat :=
  match rfind "." name with
  | Some i =>
      if (Nat.ltb 0 i && Nat.ltb i (String.length name - 1))%bool
      then Some i else None
  | None => None
  end.

(** [p.suffix] *)
Definition path_suffix (p : Path) : string :=
  let name := path_name p in
  match suffix_at name with
  | Some i => String.substring i (String.length name - i) name
  | None => EmptyString
  end.

(** [p.stem] *)
Definition path_stem (p : Path) : string :=
  let name := path_name p in
  match suffix_at name with
  | Some i => String.substring 0 i name
  | None => name
  end.

(** [str(p.parent)] *)
Definition path_parent (p : Path) : Path :=
  let root := if String.prefix "/" p then "/" else EmptyString in
  let dir := root +:+ join "/" (removelast (parts p)) in
  if nonempty dir then dir else ".".

(** [p / name] *)
Definition path_join (p : Path) (name : string) : Path :=
  if String.prefix "/" name then name
  else if String.eqb p "/" then p +:+ name
  else p +:+ "/" +:+ name.

(** *** [urllib.parse.urlparse(url).scheme]

    The scheme is the text before the first colon when that text is not
    empty, starts with a letter and consists of letters, digits, [+], [-]
    and [.]; it is returned in lower case.  (The removal of leading
    control characters and of tabs and line breaks, which recent Python
    versions perform first, is not modelled.) *)

Definition is_alpha (c : ascii) : bool :=
  let n := nat_of_ascii c in
  (Nat.leb 65 n && Nat.leb n 90 || Nat.leb 97 n && Nat.leb n 122)%bool.

Definition is_digit (c : ascii) : bool :=
  let n := nat_of_ascii c in (Nat.leb 48 n && Nat.leb n 57)%bool.

Definition scheme_char (c : ascii) : bool :=
  (is_alpha c || is_digit c
   || Ascii.eqb c "+" || Ascii.eqb c "-" || Ascii.eqb c ".")%bool.

Definition urlparse_scheme (url : string) : string :=
  match find ":" url with
  | Some (S i) =>
      let pre := String.substring 0 (S i) url in
      match url with
      | String c _ =>
          if (is_alpha c && forallb_str scheme_char pre)%bool
          then lower pre else EmptyString
      | EmptyString => EmptyString
      end
  | _ => EmptyString
  end.

End Py.

(** ** The host application

    OpenLP's managers, Qt's threads, the file system and the network are
    collaborators: the plugin only calls them.  [Query] lists the calls
    that read, [Cmd] the calls that may change the host; the result type of
    each is given by [qret] and [cret].  A [Host] interprets them on a
    state of its own, and any call may raise. *)

Module Host.
Import Py.

Inductive ServiceItemType : Type := Text | Image | Command.

(** A service item as the plugin reads it. *)
Record ServiceItem : Type := {
  title : string;
  service_item_type : ServiceItemType;
  name : string;
  theme : option string;
  unique_identifier : string;
}.

(** An element of [service_manager.service_items]. *)
Record Entry : Type := {
  service_item : ServiceItem;
  order : Z;
}.

(** A row of the songs database. *)
Record Song : Type := { song_id : Z; song_title : string }.

(** The attributes the plugin assigns on a [ServiceItem] it builds;
    [None] is an attribute it leaves as the constructor set it. *)
Record NewItem : Type := {
  ni_plugin : string;
  ni_title : option string;
  ni_name : option string;
  ni_type : option ServiceItemType;
  ni_processor : option string;
  ni_sha256_file_hash : option string;
}.

Definition Thread : Type := nat.
Definition WorkerId : Type := nat.

Inductive Query : Type :=
| import_ (module : string)
| registry_get (key : string)
| get_plugin_by_name (plugin : string)
| plugin_is_active (plugin : string)
| service_items
| service_item_get_theme_data (index : nat)
| live_service_item
| settings_value (key : string)
| get_theme_names
| global_theme
| get_theme_data (theme_name : string)
| songs_get_all_objects (title : string)
| pdf_controller_present
| pdf_controller_enabled
| doc_hasattr (attr : string)
| doc_slide_count
| thread_isRunning (t : Thread)
| path_exists (p : Path)
| sha256_file_hash (p : Path)
| gettempdir
| get_filename_from_url (url : string).

Definition qret (q : Query) : Type :=
  match q with
  | import_ _ | registry_get _ => unit
  | get_plugin_by_name _ | plugin_is_active _ => bool
  | service_items => list Entry
  | service_item_get_theme_data _ => option Dict
  | live_service_item => option string
  | settings_value _ => Val
  | get_theme_names => list string
  | global_theme => option string
  | get_theme_data _ => option Dict
  | songs_get_all_objects _ => list Song
  | pdf_controller_present | pdf_controller_enabled => bool
  | doc_hasattr _ => bool
  | doc_slide_count => option Z
  | thread_isRunning _ => bool
  | path_exists _ => bool
  | sha256_file_hash _ => string
  | gettempdir => Path
  | get_filename_from_url _ => string
  end.

Inductive Cmd : Type :=
(* service manager *)
| new_file
| repaint_service_list (item child : Z)
| load_file (p : Path)
| set_file_name (p : Path)
| decide_save_method
| add_service_item (item : NewItem)
| set_item (index : Z)
| make_live
| set_service_theme (theme_name : string)
| set_modified
| service_item_update_theme (index : nat) (theme_name : option string)
(* live controller and settings *)
| on_slide_selected_next
| on_slide_selected_previous
| refresh_service_item (index : nat)
| update_slide_limits
| settings_setValue (key value : string)
(* theme manager *)
| save_theme (theme : Dict)
| update_preview_images (names : list string)
| delete_theme (theme_name : string)
| load_themes
| clone_theme_data (theme_data : option Dict) (new_theme_name : string)
(* building a service item *)
| ServiceItem_new (plugin : string)
| add_icon
| add_from_text (text : string)
| add_from_image (p : Path) (file_name : string)
| add_from_command (dir file_name image : string)
    (display_title_notes_hash : option (string * string * string))
| add_capability (capability : string)
| QListWidgetItem_new (data : Z)
| generate_slide_data
(* the PDF controller and its document *)
| add_document (p : Path)
| load_presentation
| get_slide_count
| get_page_count
| pageCount
| get_thumbnail_path (slide : Z)
| get_sha256_file_hash
| close_presentation
(* Qt threads and the conversion worker *)
| QThread_new
| ConversionWorker_new
| moveToThread (worker : WorkerId) (t : Thread)
| connect_conversion_completed (worker : WorkerId)
| connect_conversion_failed (worker : WorkerId)
| connect_started (t : Thread) (ppt_path : Path)
| thread_start (t : Thread)
| thread_quit (t : Thread)
| thread_wait (t : Thread)
(* conversion back ends, file system, network *)
| convert_with_libreoffice (ppt_path : Path)
| convert_with_python_pptx (ppt_path : Path)
| mkdir (p : Path)
| download_file (url : string) (dest : Path)
| unlink (p : Path).

Definition cret (c : Cmd) : Type :=
  match c with
  | generate_slide_data | add_document _ | load_presentation
  | download_file _ _ => bool
  | get_slide_count | get_page_count | pageCount => option Z
  | get_thumbnail_path _ => option string
  | get_sha256_file_hash => string
  | QThread_new => Thread
  | ConversionWorker_new => WorkerId
  | convert_with_libreoffice _ | convert_with_python_pptx _ => option Path
  | _ => unit
  end.

Record Host (H : Type) : Type := {
  ask : ∀ q : Query, H → Outcome (qret q);
  exec : ∀ c : Cmd, H → Outcome (cret c) * H;
  (** [str(t)] of the host's [ServiceItemType] enumeration *)
  str_item_type : ServiceItemType → string;
}.
Arguments ask {H} _ _ _.
Arguments exec {H} _ _ _.
Arguments str_item_type {H} _ _.

End Host.

(** ** The worker object ([src/worker.py]) *)

Module MCPWorker.
Import Py Host.

(** What [operation_completed] carries: a string, a list of dictionaries
    ([get_service_items]) or a list of strings ([list_themes]). *)
Inductive Payload : Type :=
| PStr (s : string)
| PDicts (l : list Dict)
| PStrs (l : list string).

(** The fields of the [MCPWorker] instance.  [result_ready] is the flag of
    the [threading.Event]. *)
Record Self : Type := {
  current_result : option Payload;
  result_ready : bool;
  conversion_thread : option Thread;
  conversion_worker : option WorkerId;
  pending_conversion_title : option string;
}.

(** [MCPWorker.__init__] *)
Definition init : Self := {|
  current_result := None;
  result_ready := false;
  conversion_thread := None;
  conversion_worker := None;
  pending_conversion_title := None;
|}.

(** What happened, in order: the calls made to the host and the
    emissions of [operation_completed]. *)
Inductive Ev : Type :=
| EvAsk (q : Query)
| EvExec (c : Cmd)
| EvSignal (p : Payload).

(** The worker object and the host it drives. *)
Record World (H : Type) : Type := {
  self : Self;
  app : H;
}.
Arguments self {H} _.
Arguments app {H} _.

(** A run of a piece of code: how it ended, the world it left and what
    it did. *)
Record Run (H A : Type) : Type := {
  outcome : Outcome A;
  after : World H;
  events : list Ev;
}.
Arguments outcome {H A} _.
Arguments after {H A} _.
Arguments events {H A} _.

(** The payloads emitted among some events. *)
Definition signals (tr : list Ev) : list Payload :=
  omap (λ e, match e with EvSignal p => Some p | _ => None end) tr.

(** The commands executed among some events. *)
Definition commands (tr : list Ev) : list Cmd :=
  omap (λ e, match e with EvExec c => Some c | _ => None end) tr.

(** The items handed to the service manager among some events. *)
Definition added (tr : list Ev) : list NewItem :=
  omap (λ e, match e with
             | EvExec (add_service_item item) => Some item
             | _ => None
             end) tr.

Section WithHost.
Context {H : Type} (host : Host H).

(** Code of the privileged thread: it reads and writes the world and
    either returns or raises. *)
Definition M (A : Type) : Type := World H → Run H A.

Definition ret {A} (a : A) : M A := λ w,
  {| outcome := Ok a; after := w; events := [] |}.

(** [r] after the events [es]. *)
Definition preceded {A} (es : list Ev) (r : Run H A) : Run H A :=
  match r with
  | {| outcome := o; after := w; events := es' |} =>
      {| outcome := o; after := w; events := es ++ es' |}
  end.

Definition bind {A B} (m : M A) (f : A → M B) : M B := λ w,
  match m w with
  | {| outcome := Ok a; after := w'; events := es |} =>
      preceded es (f a w')
  | {| outcome := Raise e; after := w'; events := es |} =>
      {| outcome := Raise e; after := w'; events := es |}
  end.

Notation "x ← y ; z" := (bind y (λ x, z))
  (at level 20, y at level 100, z at level 200, only parsing).
Notation "y ;; z" := (bind y (λ _, z))
  (at level 100, z at level 200, only parsing, right associativity).

Definition raise {A} (e : string) : M A := λ w,
  {| outcome := Raise e; after := w; events := [] |}.

(** [try: body except Exception as e: handler(str(e))] *)
Definition try_except {A} (body : M A) (handler : string → M A) : M A :=
  λ w, match body w with
       | {| outcome := Raise e; after := w'; events := es |} =>
           preceded es (handler e w')
       | r => r
       end.

(** [try: body except: pass] *)
Definition try_pass (body : M unit) : M unit :=
  try_except body (λ _, ret tt).

Definition log_ev (e : Ev) : M unit := λ w,
  {| outcome := Ok tt; after := w; events := [e] |}.

Definition query (q : Query) : M (qret q) := λ w,
  {| outcome := ask host q (app w); after := w; events := [EvAsk q] |}.

Definition call (c : Cmd) : M (cret c) := λ w,
  match exec host c (app w) with
  | (r, h) =>
      {| outcome := r; after := {| self := self w; app := h |};
         events := [EvExec c] |}
  end.

Definition get_self : M Self := λ w,
  {| outcome := Ok (self w); after := w; events := [] |}.

Definition set_self (s : Self) : M unit := λ w,
  {| outcome := Ok tt; after := {| self := s; app := app w |};
     events := [] |}.

(** [for x in xs: body(x)] *)
Fixpoint for_each {A} (xs : list A) (body : A → M unit) : M unit :=
  match xs with
  | [] => ret tt
  | x :: xs' => body x;; for_each xs' body
  end.

(** [_handle_result]: the slot connected to [operation_completed]. *)
Definition _handle_result (result : Payload) : M unit :=
  s ← get_self;
  set_self {| current_result := Some result;
              result_ready := true;
              conversion_thread := conversion_thread s;
              conversion_worker := conversion_worker s;
              pending_conversion_title := pending_conversion_title s |}.

(** [self.operation_completed.emit(result)]: emitter and receiver live
    on the same thread, so the slot runs at once. *)
Definition emit (result : Payload) : M unit :=
  log_ev (EvSignal result);; _handle_result result.

(** *** [url_utils.py] *)

Definition is_url (path_or_url : string) : bool :=
  mem (urlparse_scheme path_or_url) ["http"; "https"; "ftp"; "ftps"].

(** [resolve_file_path]; the file name chosen for a download
    ([get_filename_from_url]: a HEAD request, URL patterns and
    [hash(url)]) is asked of the host. *)
Definition resolve_file_path (file_path_or_url : string) : M Path :=
  if negb (nonempty file_path_or_url)
  then raise "file_path_or_url cannot be empty"
  else if is_url file_path_or_url then
    tmp ← query gettempdir;
    let temp_dir := path_join tmp "openlp_mcp_downloads" in
    call (mkdir temp_dir);;
    filename ← query (get_filename_from_url file_path_or_url);
    let download_path := path_join temp_dir filename in
    try_except
      (success ← call (download_file file_path_or_url download_path);
       if negb success
       then raise ("Failed to download file from " +:+ file_path_or_url)
       else ret download_path)
      (λ e,
         present ← query (path_exists download_path);
         (if present then try_pass (call (unlink download_path))
          else ret tt);;
         raise ("Failed to download " +:+ file_path_or_url +:+ ": " +:+ e))
  else
    present ← query (path_exists file_path_or_url);
    if negb present
    then raise ("Local file not found: " +:+ file_path_or_url)
    else ret file_path_or_url.

(** *** Service slots *)

Definition create_service : M unit :=
  try_except
    (query (registry_get "service_manager");;
     call new_file;;
     call (repaint_service_list (-1) (-1));;
     emit (PStr "New service created successfully"))
    (λ e, emit (PStr ("Error creating new service: " +:+ e))).

Definition load_service (file_path : string) : M unit :=
  try_except
    (resolved_path ← resolve_file_path file_path;
     query (registry_get "service_manager");;
     call (load_file resolved_path);;
     if is_url file_path
     then emit (PStr ("Service downloaded from " +:+ file_path
                      +:+ " and loaded successfully"))
     else emit (PStr ("Service loaded from " +:+ file_path)))
    (λ e, emit (PStr ("Error loading service: " +:+ e))).

Definition save_service (file_path : string) : M unit :=
  try_except
    (query (registry_get "service_manager");;
     (if nonempty file_path then call (set_file_name file_path)
      else ret tt);;
     call decide_save_method;;
     emit (PStr ("Service saved"
                 +:+ (if nonempty file_path then " to " +:+ file_path
                      else EmptyString))))
    (λ e, emit (PStr ("Error saving service: " +:+ e))).

(** The dictionary [get_service_items] builds for one entry. *)
Definition item_record (item : Entry) : Dict :=
  [("title", VStr (title (service_item item)));
   ("type", VStr (str_item_type host
                    (service_item_type (service_item item))));
   ("plugin", VStr (name (service_item item)));
   ("order", VInt (order item))].

Definition get_service_items : M unit :=
  try_except
    (query (registry_get "service_manager");;
     entries ← query service_items;
     emit (PDicts (item_record <$> entries)))
    (λ e, emit (PDicts [[("error", VStr e)]])).

(** [not plugin or not plugin.is_active()], negated. *)
Definition plugin_available (plugin : string) : M bool :=
  query (registry_get "plugin_manager");;
  found ← query (get_plugin_by_name plugin);
  if found then query (plugin_is_active plugin) else ret false.

Definition new_item (plugin : string) : NewItem := {|
  ni_plugin := plugin;
  ni_title := None;
  ni_name := None;
  ni_type := None;
  ni_processor := None;
  ni_sha256_file_hash := None;
|}.

(** [_create_song_placeholder]; the plugin has been looked up already. *)
Definition _create_song_placeholder (title lyrics : string) : M unit :=
  call (ServiceItem_new "songs");;
  let service_item := {|
    ni_plugin := "songs";
    ni_title := Some title;
    ni_name := Some "songs";
    ni_type := Some Text;
    ni_processor := None;
    ni_sha256_file_hash := None |} in
  call add_icon;;
  (if nonempty lyrics then
     for_each (split (nl +:+ nl) lyrics) (λ verse,
       if nonempty (strip verse) then call (add_from_text (strip verse))
       else ret tt)
   else
     call (add_from_text ("Song: " +:+ title +:+ nl +:+ nl
                          +:+ "(Lyrics not available)")));;
  query (registry_get "service_manager");;
  call (add_service_item service_item);;
  call (repaint_service_list (-1) (-1)).

Definition add_song (title author lyrics : string) : M unit :=
  try_except
    (available ← plugin_available "songs";
     if negb available then emit (PStr "Songs plugin not available")
     else
       query (import_ "openlp.plugins.songs.lib.db");;
       existing_songs ← query (songs_get_all_objects title);
       match existing_songs with
       | song :: _ =>
           try_except
             (query (import_ "PySide6.QtWidgets");;
              query (import_ "PySide6.QtCore");;
              call (QListWidgetItem_new (song_id song));;
              call (ServiceItem_new "songs");;
              call add_icon;;
              generated ← call generate_slide_data;
              if generated then
                query (registry_get "service_manager");;
                call (add_service_item (new_item "songs"));;
                call (repaint_service_list (-1) (-1));;
                emit (PStr ("Song '" +:+ song_title song
                            +:+ "' added from database"))
              else
                _create_song_placeholder title lyrics;;
                emit (PStr ("Song '" +:+ title
                            +:+ "' found but failed to load - added placeholder")))
             (λ _,
                _create_song_placeholder title lyrics;;
                emit (PStr ("Song '" +:+ title
                            +:+ "' found but failed to load - added placeholder")))
       | [] =>
           _create_song_placeholder title lyrics;;
           emit (PStr ("Song '" +:+ title
                       +:+ "' not found in database - added placeholder"))
       end)
    (λ e, emit (PStr ("Error adding song: " +:+ e))).

Definition add_custom_slide (title content : string) : M unit :=
  try_except
    (query (registry_get "plugin_manager");;
     query (get_plugin_by_name "custom");;
     call (ServiceItem_new "custom");;
     let service_item := {|
       ni_plugin := "custom";
       ni_title := Some title;
       ni_name := Some "custom";
       ni_type := Some Text;
       ni_processor := None;
       ni_sha256_file_hash := None |} in
     call add_icon;;
     call (add_from_text content);;
     query (registry_get "service_manager");;
     call (add_service_item service_item);;
     call (repaint_service_list (-1) (-1));;
     emit (PStr ("Custom slide '" +:+ title +:+ "' added to service")))
    (λ e, emit (PStr ("Error adding custom slide: " +:+ e))).

(** *** Media *)

Definition image_extensions : list string :=
  [".jpg"; ".jpeg"; ".png"; ".bmp"; ".gif"; ".tiff"; ".tif"; ".webp";
   ".svg"].
Definition video_extensions : list string :=
  [".mp4"; ".avi"; ".mov"; ".mkv"; ".wmv"; ".flv"; ".webm"; ".m4v";
   ".3gp"].
Definition audio_extensions : list string :=
  [".mp3"; ".wav"; ".ogg"; ".flac"; ".aac"; ".m4a"; ".wma"].
Definition presentation_extensions : list string :=
  [".pdf"; ".pptx"; ".ppt"; ".pps"; ".ppsx"; ".odp"].
Definition powerpoint_extensions : list string :=
  [".pptx"; ".ppt"; ".pps"; ".ppsx"].

(** [title or file_path.name] *)
Definition title_or (title : string) (default : string) : string :=
  if nonempty title then title else default.

Definition _add_image (file_path : Path) (title : string) : M unit :=
  available ← plugin_available "images";
  if negb available then emit (PStr "Images plugin not available")
  else
    call (ServiceItem_new "images");;
    let item_title := title_or title (path_name file_path) in
    call add_icon;;
    call (add_from_image file_path (path_name file_path));;
    query (import_ "openlp.core.common");;
    file_hash ← query (sha256_file_hash file_path);
    let service_item := {|
      ni_plugin := "images";
      ni_title := Some item_title;
      ni_name := Some "images";
      ni_type := None;
      ni_processor := None;
      ni_sha256_file_hash := Some file_hash |} in
    query (import_ "openlp.core.lib.serviceitem");;
    for_each ["CanMaintain"; "CanPreview"; "CanLoop"; "CanAppend";
              "CanEditTitle"; "HasThumbnails"; "ProvidesOwnTheme"]
      (λ capability, call (add_capability capability));;
    query (registry_get "service_manager");;
    call (add_service_item service_item);;
    call (repaint_service_list (-1) (-1));;
    emit (PStr ("Image '" +:+ item_title +:+ "' added to service")).

Definition _add_video_audio (file_path : Path) (title : string)
    (is_video : bool) : M unit :=
  available ← plugin_available "media";
  if negb available then emit (PStr "Media plugin not available")
  else
    call (ServiceItem_new "media");;
    let item_title := title_or title (path_name file_path) in
    let service_item := {|
      ni_plugin := "media";
      ni_title := Some item_title;
      ni_name := Some "media";
      ni_type := Some Command;
      ni_processor := Some "qt6";
      ni_sha256_file_hash := None |} in
    call add_icon;;
    call (add_from_command (path_parent file_path) (path_name file_path)
            "clapperboard" None);;
    query (import_ "openlp.core.lib.serviceitem");;
    for_each ["CanAutoStartForLive"; "CanEditTitle"; "RequiresMedia"]
      (λ capability, call (add_capability capability));;
    query (registry_get "service_manager");;
    call (add_service_item service_item);;
    call (repaint_service_list (-1) (-1));;
    let media_type := if is_video then "video" else "audio" in
    emit (PStr (capitalize media_type +:+ " '" +:+ item_title
                +:+ "' added to service")).

(** The slide count [_add_pdf_presentation] settles on: the first
    probe the document offers, 1 when it yields nothing usable or
    raises. *)
Definition positive_or_1 (count : option Z) : Z :=
  match count with
  | Some n => if Z.ltb 0 n then n else 1
  | None => 1
  end.

Definition probe_slide_count : M Z :=
  try_except
    (has_slide_count ← query (doc_hasattr "get_slide_count");
     if has_slide_count then (count ← call get_slide_count; ret (positive_or_1 count))
     else
       has_page_count ← query (doc_hasattr "get_page_count");
       if has_page_count then (count ← call get_page_count; ret (positive_or_1 count))
       else
         has_pageCount ← query (doc_hasattr "pageCount");
         if has_pageCount then (count ← call pageCount; ret (positive_or_1 count))
         else
           has_attr ← query (doc_hasattr "slide_count");
           if has_attr then
             attr ← query doc_slide_count;
             match attr with
             | Some n => if Z.eqb n 0 then ret 1 else ret n
             | None => ret 1
             end
           else ret 1)
    (λ _, ret 1).

(** One iteration of the slide loop of [_add_pdf_presentation]. *)
Definition add_slide (file_path : Path) (i : Z) : M unit :=
  try_except
    (has_thumb ← query (doc_hasattr "get_thumbnail_path");
     thumbnail_path ←
       (if has_thumb then call (get_thumbnail_path i) else ret None);
     has_hash ← query (doc_hasattr "get_sha256_file_hash");
     file_hash ←
       (if has_hash then call get_sha256_file_hash else ret EmptyString);
     call (add_from_command (path_parent file_path) (path_name file_path)
             (str_or thumbnail_path EmptyString)
             (Some ("Slide " +:+ str_of_int i, EmptyString, file_hash))))
    (λ _,
       try_pass
         (call (add_from_command (path_parent file_path)
                  (path_name file_path) EmptyString
                  (Some ("Slide " +:+ str_of_int i, EmptyString, EmptyString))))).

Definition _add_pdf_presentation (file_path : Path) (title : string)
    : M unit :=
  try_except
    (available ← plugin_available "presentations";
     if negb available
     then emit (PStr "Presentations plugin not available")
     else
       present ← query pdf_controller_present;
       enabled ← (if present then query pdf_controller_enabled
                  else ret false);
       if negb enabled
       then emit (PStr "PDF controller not available - please ensure PDF support is enabled")
       else
         doc ← call (add_document file_path);
         if negb doc
         then emit (PStr ("Failed to create PDF document for: "
                          +:+ path_name file_path))
         else
           loaded ← call load_presentation;
           if negb loaded
           then emit (PStr ("Failed to load presentation: "
                            +:+ path_name file_path))
           else
             call (ServiceItem_new "presentations");;
             let item_title := title_or title (path_name file_path) in
             let service_item := {|
               ni_plugin := "presentations";
               ni_title := Some item_title;
               ni_name := Some "presentations";
               ni_type := None;
               ni_processor := Some "Pdf";
               ni_sha256_file_hash := None |} in
             call add_icon;;
             query (import_ "openlp.core.lib.serviceitem");;
             for_each ["CanEditTitle"; "ProvidesOwnDisplay";
                       "HasThumbnails"]
               (λ capability, call (add_capability capability));;
             slide_count ← probe_slide_count;
             if Z.ltb 0 slide_count then
               for_each (seqZ 1 slide_count) (add_slide file_path);;
               query (registry_get "service_manager");;
               call (add_service_item service_item);;
               call (repaint_service_list (-1) (-1));;
               try_pass (call close_presentation);;
               emit (PStr ("Presentation '" +:+ item_title +:+ "' with "
                           +:+ str_of_int slide_count
                           +:+ " slides added to service"))
             else
               try_pass (call close_presentation);;
               emit (PStr ("No slides found in presentation: "
                           +:+ path_name file_path)))
    (λ e, emit (PStr ("Error adding PDF presentation: " +:+ e))).

(** *** The single conversion thread *)

Definition set_pending_conversion_title (t : option string) : M unit :=
  s ← get_self;
  set_self {| current_result := current_result s;
              result_ready := result_ready s;
              conversion_thread := conversion_thread s;
              conversion_worker := conversion_worker s;
              pending_conversion_title := t |}.

Definition set_conversion_thread (t : option Thread) : M unit :=
  s ← get_self;
  set_self {| current_result := current_result s;
              result_ready := result_ready s;
              conversion_thread := t;
              conversion_worker := conversion_worker s;
              pending_conversion_title := pending_conversion_title s |}.

Definition set_conversion_worker (k : option WorkerId) : M unit :=
  s ← get_self;
  set_self {| current_result := current_result s;
              result_ready := result_ready s;
              conversion_thread := conversion_thread s;
              conversion_worker := k;
              pending_conversion_title := pending_conversion_title s |}.

Definition _start_powerpoint_conversion (ppt_path : Path)
    (title : string) : M unit :=
  try_except
    (s ← get_self;
     match conversion_thread s with
     | Some old =>
         running ← query (thread_isRunning old);
         if running then call (thread_quit old);; call (thread_wait old)
         else ret tt
     | None => ret tt
     end;;
     set_pending_conversion_title
       (Some (title_or title (path_stem ppt_path +:+ " (converted)")));;
     t ← call QThread_new;
     set_conversion_thread (Some t);;
     k ← call ConversionWorker_new;
     set_conversion_worker (Some k);;
     call (moveToThread k t);;
     call (connect_conversion_completed k);;
     call (connect_conversion_failed k);;
     call (connect_started t ppt_path);;
     call (thread_start t))
    (λ e, emit (PStr ("Error starting PowerPoint conversion: " +:+ e))).

Definition _cleanup_conversion_thread : M unit :=
  s ← get_self;
  match conversion_thread s with
  | Some t =>
      call (thread_quit t);;
      call (thread_wait t);;
      set_conversion_thread None;;
      set_conversion_worker None
  | None => ret tt
  end.

Definition _on_conversion_completed (pdf_path : Path) (title : string)
    : M unit :=
  try_except
    (_add_pdf_presentation pdf_path title;;
     _cleanup_conversion_thread)
    (λ e, emit (PStr ("Error adding converted presentation: " +:+ e))).

Definition _on_conversion_failed (error_message : string) : M unit :=
  emit (PStr error_message);;
  _cleanup_conversion_thread.

Definition _add_presentation (file_path : Path) (title : string)
    : M unit :=
  try_except
    (let extension := lower (path_suffix file_path) in
     if mem extension powerpoint_extensions
     then _start_powerpoint_conversion file_path title
     else _add_pdf_presentation file_path title)
    (λ e, emit (PStr ("Error adding presentation: " +:+ e))).

Definition supported_formats : string :=
  "images (" +:+ join ", " (sorted image_extensions)
  +:+ "), videos (" +:+ join ", " (sorted video_extensions)
  +:+ "), audio (" +:+ join ", " (sorted audio_extensions)
  +:+ "), presentations (" +:+ join ", " (sorted presentation_extensions)
  +:+ ")".

(** The part of [add_media] that follows locator resolution. *)
Definition route_media (file_path : string) (resolved_path : Path)
    (title : string) : M unit :=
  let extension := lower (path_suffix resolved_path) in
  let title :=
    if (is_url file_path && negb (nonempty title))%bool
    then path_name resolved_path +:+ " (downloaded)" else title in
  if mem extension image_extensions
  then _add_image resolved_path title
  else if (mem extension video_extensions
           || mem extension audio_extensions)%bool
  then _add_video_audio resolved_path title
         (mem extension video_extensions)
  else if mem extension presentation_extensions
  then _add_presentation resolved_path title
  else emit (PStr ("Unsupported format: " +:+ extension
                   +:+ ". Supported: " +:+ supported_formats)).

Definition add_media (file_path title : string) : M unit :=
  try_except
    (resolved_path ← resolve_file_path file_path;
     route_media file_path resolved_path title)
    (λ e, emit (PStr ("Error adding media: " +:+ e))).

(** *** Live display and service theme *)

Definition go_live (item_index : Z) : M unit :=
  try_except
    (query (registry_get "service_manager");;
     call (set_item item_index);;
     call make_live;;
     emit (PStr ("Item " +:+ str_of_int item_index +:+ " is now live")))
    (λ e, emit (PStr ("Error going live: " +:+ e))).

Definition next_slide : M unit :=
  try_except
    (query (registry_get "live_controller");;
     call on_slide_selected_next;;
     emit (PStr "Moved to next slide"))
    (λ e, emit (PStr ("Error moving to next slide: " +:+ e))).

Definition previous_slide : M unit :=
  try_except
    (query (registry_get "live_controller");;
     call on_slide_selected_previous;;
     emit (PStr "Moved to previous slide"))
    (λ e, emit (PStr ("Error moving to previous slide: " +:+ e))).

Definition list_themes : M unit :=
  try_except
    (query (registry_get "theme_manager");;
     themes ← query get_theme_names;
     emit (PStrs themes))
    (λ e, emit (PStrs ["Error: " +:+ e])).

Definition set_theme (theme_name : string) : M unit :=
  try_except
    (query (registry_get "service_manager");;
     call (set_service_theme theme_name);;
     emit (PStr ("Service theme set to '" +:+ theme_name +:+ "'")))
    (λ e, emit (PStr ("Error setting theme: " +:+ e))).

(** [_configure_slide_navigation], run once by [__init__]. *)
Definition _configure_slide_navigation : M unit :=
  try_pass
    (query (import_ "openlp.core.common.registry");;
     query (import_ "openlp.core.common");;
     query (registry_get "settings");;
     call (settings_setValue "advanced/slide limits" "SlideLimits.Next");;
     try_pass
       (query (registry_get "live_controller");;
        call update_slide_limits)).

(** *** Theme management *)

(** [d[k]]: a missing key raises [KeyError], whose text is the key in
    quotes. *)
Definition dict_item (d : Dict) (k : string) : M Val :=
  match dict_get d k with
  | Some v => ret v
  | None => raise ("'" +:+ k +:+ "'")
  end.

(** [d.get(k, dflt)] *)
Definition get_or (d : Dict) (k : string) (dflt : Val) : Val :=
  default dflt (dict_get d k).

(** [obj.k] on a theme object, whose attributes are a dictionary. *)
Definition attr (obj : Dict) (k : string) : M Val :=
  match dict_get obj k with
  | Some v => ret v
  | None => raise ("'Theme' object has no attribute '" +:+ k +:+ "'")
  end.

(** [v == s] for a string literal [s]. *)
Definition val_is (v : Val) (s : string) : bool :=
  match v with
  | VStr x => String.eqb x s
  | _ => false
  end.

Definition val_in (v : Val) (xs : list string) : bool :=
  match v with
  | VStr x => mem x xs
  | _ => false
  end.

(** [is_url] swallows the fault [urlparse] raises on a non-string. *)
Definition is_url_val (v : Val) : bool :=
  match v with
  | VStr x => is_url x
  | _ => false
  end.

(** [resolve_file_path] on a dictionary value: [Path] rejects what is
    not a string. *)
Definition resolve_val (v : Val) : M Path :=
  match v with
  | VStr x => resolve_file_path x
  | VNone => raise "file_path_or_url cannot be empty"
  | VBool _ => raise "expected str, bytes or os.PathLike object, not bool"
  | VInt _ => raise "expected str, bytes or os.PathLike object, not int"
  end.

(** The background attributes [create_theme] sets; [None] when the
    image could not be resolved and the failure has been emitted. *)
Definition theme_background (theme_data : Dict) : M (option Dict) :=
  let background_type :=
    get_or theme_data "background_type" (VStr "solid") in
  if val_is background_type "solid" then
    ret (Some [("background_type", VStr "solid");
               ("background_color",
                get_or theme_data "background_color" (VStr "#000000"))])
  else if val_is background_type "gradient" then
    ret (Some [("background_type", VStr "gradient");
               ("background_start_color",
                get_or theme_data "background_start_color"
                  (VStr "#000000"));
               ("background_end_color",
                get_or theme_data "background_end_color"
                  (VStr "#000000"));
               ("background_direction",
                VStr (if val_is (get_or theme_data "background_direction"
                                   (VStr "vertical")) "vertical"
                      then "vertical" else "horizontal"))])
  else if (val_is background_type "image"
           && truthy (get_or theme_data "background_image_path" VNone))%bool
  then
    image_path ← dict_item theme_data "background_image_path";
    try_except
      (resolved_path ← resolve_val image_path;
       query (import_ "pathlib");;
       ret (Some [("background_type", VStr "image");
                  ("background_source", VStr resolved_path);
                  ("background_filename", VStr resolved_path)]))
      (λ e,
         emit (PStr ("Error downloading background image from "
                     +:+ str image_path +:+ ": " +:+ e));;
         ret None)
  else ret (Some []).

Definition theme_fonts (theme_data : Dict) : Dict :=
  [("font_main_name", get_or theme_data "font_main_name" (VStr "Arial"));
   ("font_main_size", get_or theme_data "font_main_size" (VInt 40));
   ("font_main_color",
    get_or theme_data "font_main_color" (VStr "#FFFFFF"));
   ("font_main_bold", get_or theme_data "font_main_bold" (VBool false));
   ("font_main_italics",
    get_or theme_data "font_main_italics" (VBool false));
   ("font_main_outline",
    get_or theme_data "font_main_outline" (VBool false));
   ("font_main_outline_color",
    get_or theme_data "font_main_outline_color" (VStr "#000000"));
   ("font_main_outline_size",
    get_or theme_data "font_main_outline_size" (VInt 2));
   ("font_main_shadow",
    get_or theme_data "font_main_shadow" (VBool true));
   ("font_main_shadow_color",
    get_or theme_data "font_main_shadow_color" (VStr "#000000"));
   ("font_main_shadow_size",
    get_or theme_data "font_main_shadow_size" (VInt 5));
   ("font_footer_name",
    get_or theme_data "font_footer_name" (VStr "Arial"));
   ("font_footer_size", get_or theme_data "font_footer_size" (VInt 12));
   ("font_footer_color",
    get_or theme_data "font_footer_color" (VStr "#FFFFFF"))].

Definition create_theme (theme_data : Dict) : M unit :=
  try_except
    (query (import_ "openlp.core.lib.theme");;
     query (import_ "openlp.core.common.registry");;
     theme_name ← dict_item theme_data "theme_name";
     query (registry_get "theme_manager");;
     names ← query get_theme_names;
     if val_in theme_name names
     then emit (PStr ("Theme '" +:+ str theme_name
                      +:+ "' already exists"))
     else
       background ← theme_background theme_data;
       match background with
       | None => ret tt
       | Some background_attrs =>
           let theme := ("theme_name", theme_name) :: background_attrs
                        ++ theme_fonts theme_data in
           call (save_theme theme);;
           call (update_preview_images [str theme_name]);;
           let image_path :=
             get_or theme_data "background_image_path" VNone in
           let downloaded :=
             (val_is (get_or theme_data "background_type" (VStr "solid"))
                "image"
              && truthy image_path && is_url_val image_path)%bool in
           emit (PStr ("Theme '" +:+ str theme_name
                       +:+ "' created successfully"
                       +:+ (if downloaded
                            then " (background image downloaded from URL)"
                            else EmptyString)))
       end)
    (λ e, emit (PStr ("Error creating theme: " +:+ e))).

(** [getattr(obj, k, 'N/A')] *)
Definition getattr_na (obj : Dict) (k : string) : Val :=
  get_or obj k (VStr "N/A").

Definition get_theme_details (theme_name : string) : M unit :=
  try_except
    (query (import_ "openlp.core.common.registry");;
     query (registry_get "theme_manager");;
     found ← query (get_theme_data theme_name);
     match found with
     | None => emit (PStr ("Theme '" +:+ theme_name +:+ "' not found"))
     | Some theme_data =>
         v_name ← attr theme_data "theme_name";
         v_type ← attr theme_data "background_type";
         let optional :=
           [("background_color", getattr_na theme_data "background_color");
            ("background_start_color",
             getattr_na theme_data "background_start_color");
            ("background_end_color",
             getattr_na theme_data "background_end_color");
            ("background_direction",
             getattr_na theme_data "background_direction");
            ("background_filename",
             VStr (str (getattr_na theme_data "background_filename")))] in
         required ←
           (fix read (ks : list string) : M Dict :=
              match ks with
              | [] => ret []
              | k :: ks' =>
                  v ← attr theme_data k;
                  rest ← read ks';
                  ret ((k, v) :: rest)
              end) (keys (theme_fonts []));
         let details : Dict :=
           ("theme_name", v_name) :: ("background_type", v_type)
           :: optional ++ required in
         emit (PStr ("Theme Details:" +:+ nl
                     +:+ join nl ((λ kv, kv.1 +:+ ": " +:+ str kv.2)
                                  <$> details)))
     end)
    (λ e, emit (PStr ("Error getting theme details: " +:+ e))).

(** The dictionary [update_theme_properties] sends. *)
Record UpdateData : Type := {
  ud_theme_name : string;
  ud_updates : Dict;
}.

Definition has_key (d : Dict) (k : string) : bool :=
  bool_decide (is_Some (dict_get d k)).

(** The loop of [update_theme] over the remaining updates: an update
    applies when its value is not [None] and the theme has the
    attribute. *)
Fixpoint apply_updates (theme : Dict) (updates_data : Dict)
    : Dict * list string :=
  match updates_data with
  | [] => (theme, [])
  | (key, value) :: rest =>
      match value with
      | VNone => apply_updates theme rest
      | _ =>
          if has_key theme key then
            let '(theme', updates) :=
              apply_updates (dict_set theme key value) rest in
            (theme', (key +:+ ": " +:+ str value) :: updates)
          else apply_updates theme rest
      end
  end.

Definition update_theme (theme_data : UpdateData) : M unit :=
  try_except
    (query (import_ "openlp.core.common.registry");;
     let theme_name := ud_theme_name theme_data in
     let updates_data := ud_updates theme_data in
     query (registry_get "theme_manager");;
     found ← query (get_theme_data theme_name);
     match found with
     | None => emit (PStr ("Theme '" +:+ theme_name +:+ "' not found"))
     | Some theme =>
         let image_path :=
           get_or updates_data "background_image_path" VNone in
         prepared ←
           (if (has_key updates_data "background_image_path"
                && truthy image_path)%bool
            then
              try_except
                (resolved_path ← resolve_val image_path;
                 query (import_ "pathlib");;
                 ret (Some
                        (dict_set
                           (dict_set theme "background_source"
                              (VStr resolved_path))
                           "background_filename" (VStr resolved_path),
                         filter (λ kv, kv.1 ≠ "background_image_path")
                           updates_data)))
                (λ e,
                   emit (PStr ("Error downloading background image from "
                               +:+ str image_path +:+ ": " +:+ e));;
                   ret None)
            else ret (Some (theme, updates_data)));
         match prepared with
         | None => ret tt
         | Some (theme1, remaining) =>
             let '(theme2, applied) := apply_updates theme1 remaining in
             let mentions_image :=
               has_key updates_data "background_image_path" in
             let updates :=
               (applied ++
                (if mentions_image then
                   [if is_url_val image_path
                    then "background_image_path: " +:+ str image_path
                         +:+ " (downloaded)"
                    else "background_image_path: " +:+ str image_path]
                 else []))%list in
             if (bool_decide (updates ≠ []) || mentions_image)%bool then
               call (save_theme theme2);;
               call (update_preview_images [theme_name]);;
               emit (PStr ("Theme '" +:+ theme_name +:+ "' updated: "
                           +:+ join ", " updates))
             else
               emit (PStr ("No valid properties provided to update for theme '"
                           +:+ theme_name +:+ "'"))
         end
     end)
    (λ e, emit (PStr ("Error updating theme: " +:+ e))).

Definition delete_theme (theme_name : string) : M unit :=
  try_except
    (query (import_ "openlp.core.common.registry");;
     query (registry_get "theme_manager");;
     names ← query get_theme_names;
     if negb (mem theme_name names)
     then emit (PStr ("Theme '" +:+ theme_name +:+ "' not found"))
     else if String.eqb theme_name "Default"
     then emit (PStr "Cannot delete the default theme 'Default'")
     else
       current ← query global_theme;
       if bool_decide (Some theme_name = current)
       then emit (PStr ("Cannot delete the global theme '" +:+ theme_name
                        +:+ "'. Please set a different global theme first."))
       else
         call (Host.delete_theme theme_name);;
         call load_themes;;
         emit (PStr ("Theme '" +:+ theme_name
                     +:+ "' deleted successfully")))
    (λ e, emit (PStr ("Error deleting theme: " +:+ e))).

Definition duplicate_theme (existing_theme_name new_theme_name : string)
    : M unit :=
  try_except
    (query (import_ "openlp.core.common.registry");;
     query (registry_get "theme_manager");;
     names ← query get_theme_names;
     if negb (mem existing_theme_name names)
     then emit (PStr ("Source theme '" +:+ existing_theme_name
                      +:+ "' not found"))
     else
       names' ← query get_theme_names;
       if mem new_theme_name names'
       then emit (PStr ("Theme '" +:+ new_theme_name
                        +:+ "' already exists"))
       else
         theme_data ← query (get_theme_data existing_theme_name);
         call (clone_theme_data theme_data new_theme_name);;
         emit (PStr ("Theme '" +:+ existing_theme_name
                     +:+ "' duplicated as '" +:+ new_theme_name +:+ "'")))
    (λ e, emit (PStr ("Error duplicating theme: " +:+ e))).

(** *** Per-item themes *)

(** [item_index < 0 or item_index >= len(items)], negated. *)
Definition valid_index (item_index : Z) (items : list Entry) : bool :=
  negb (Z.ltb item_index 0 || Z.leb (Z.of_nat (length items)) item_index).

(** [service_manager.service_items[item_index]['service_item']] *)
Definition item_at (item_index : Z) : M ServiceItem :=
  items ← query service_items;
  match items !! Z.to_nat item_index with
  | Some entry => ret (service_item entry)
  | None => raise "list index out of range"
  end.

(** The best-effort refresh of the live item in [set_item_theme]. *)
Definition refresh_if_live (item_index : Z) (item : ServiceItem)
    : M unit :=
  try_pass
    (query (registry_get "live_controller");;
     live ← query live_service_item;
     match live with
     | Some live_id =>
         if String.eqb (unique_identifier item) live_id then
           query (registry_get "settings");;
           hot ← query (settings_value "themes/hot reload");
           if truthy hot
           then call (refresh_service_item (Z.to_nat item_index))
           else ret tt
         else ret tt
     | None => ret tt
     end).

Definition set_item_theme (item_index : Z) (theme_name : option string)
    : M unit :=
  try_except
    (query (import_ "openlp.core.common.registry");;
     query (registry_get "service_manager");;
     items ← query service_items;
     if negb (valid_index item_index items)
     then emit (PStr ("Invalid item index: " +:+ str_of_int item_index))
     else
       item ← item_at item_index;
       let wanted :=
         match theme_name with
         | Some n =>
             if (nonempty n && negb (String.eqb (lower n) "none"))%bool
             then Some n else None
         | None => None
         end in
       known ←
         match wanted with
         | Some n =>
             query (registry_get "theme_manager");;
             names ← query get_theme_names;
             ret (mem n names)
         | None => ret true
         end;
       if negb known
       then emit (PStr ("Theme '" +:+ default EmptyString wanted
                        +:+ "' not found"))
       else
         let theme_to_set := wanted in
         call (service_item_update_theme (Z.to_nat item_index)
                 theme_to_set);;
         call (repaint_service_list item_index (-1));;
         call set_modified;;
         refresh_if_live item_index item;;
         match theme_to_set with
         | Some t =>
             emit (PStr ("Item " +:+ str_of_int item_index +:+ " ('"
                         +:+ title item +:+ "') theme set to '" +:+ t
                         +:+ "'"))
         | None =>
             emit (PStr ("Item " +:+ str_of_int item_index +:+ " ('"
                         +:+ title item
                         +:+ "') theme cleared (using service/global theme)"))
         end)
    (λ e, emit (PStr ("Error setting item theme: " +:+ e))).

(** The names [get_item_theme] gives to the host's [ThemeLevel]
    values (Global = 1, Service = 2, Song = 3). *)
Definition level_name (theme_level : Val) : string :=
  match theme_level with
  | VInt 1 => "Global"
  | VInt 2 => "Service"
  | VInt 3 => "Song/Item"
  | _ => "Unknown"
  end.

Definition get_item_theme (item_index : Z) : M unit :=
  try_except
    (query (import_ "openlp.core.common.registry");;
     query (import_ "openlp.core.common");;
     query (registry_get "service_manager");;
     items ← query service_items;
     if negb (valid_index item_index items)
     then emit (PStr ("Invalid item index: " +:+ str_of_int item_index))
     else
       item ← item_at item_index;
       let item_specific_theme := theme item in
       effective ← query (service_item_get_theme_data
                            (Z.to_nat item_index));
       effective_theme_name ←
         match effective with
         | Some data => v ← attr data "theme_name"; ret (str v)
         | None => ret "Unknown"
         end;
       query (registry_get "settings");;
       theme_level ← query (settings_value "themes/theme level");
       let head := "Item " +:+ str_of_int item_index +:+ " ('"
                   +:+ title item +:+ "'):" +:+ nl in
       let specific :=
         match item_specific_theme with
         | Some t =>
             if nonempty t
             then "  Item-specific theme: '" +:+ t +:+ "'" +:+ nl
             else "  Item-specific theme: None (using service/global theme)"
                  +:+ nl
         | None =>
             "  Item-specific theme: None (using service/global theme)"
             +:+ nl
         end in
       emit (PStr (head +:+ specific
                   +:+ "  Effective theme: '" +:+ effective_theme_name
                   +:+ "'" +:+ nl
                   +:+ "  Theme level: " +:+ level_name theme_level)))
    (λ e, emit (PStr ("Error getting item theme: " +:+ e))).

Definition clear_item_theme (item_index : Z) : M unit :=
  try_except
    (set_item_theme item_index None)
    (λ e, emit (PStr ("Error clearing item theme: " +:+ e))).

(** *** The connections made by [__init__] *)

(** What the privileged thread's event queue delivers to the worker:
    a request signal emitted by a tool, or a signal of the conversion
    worker. *)
Inductive Msg : Type :=
| create_service_requested
| load_service_requested (file_path : string)
| save_service_requested (file_path : string)
| get_service_items_requested
| add_song_requested (title author lyrics : string)
| add_custom_slide_requested (title content : string)
| add_media_requested (file_path title : string)
| go_live_requested (item_index : Z)
| next_slide_requested
| previous_slide_requested
| list_themes_requested
| set_theme_requested (theme_name : string)
| create_theme_requested (theme_data : Dict)
| get_theme_details_requested (theme_name : string)
| update_theme_requested (update_data : UpdateData)
| delete_theme_requested (theme_name : string)
| duplicate_theme_requested (existing_theme_name new_theme_name : string)
| set_item_theme_requested (item_index : Z) (theme_name : string)
| get_item_theme_requested (item_index : Z)
| clear_item_theme_requested (item_index : Z)
| conversion_completed (pdf_path : Path) (title : string)
| conversion_failed (error_message : string).

(** The slot each signal is connected to. *)
Definition slot (m : Msg) : M unit :=
  match m with
  | create_service_requested => create_service
  | load_service_requested file_path => load_service file_path
  | save_service_requested file_path => save_service file_path
  | get_service_items_requested => get_service_items
  | add_song_requested title author lyrics => add_song title author lyrics
  | add_custom_slide_requested title content =>
      add_custom_slide title content
  | add_media_requested file_path title => add_media file_path title
  | go_live_requested item_index => go_live item_index
  | next_slide_requested => next_slide
  | previous_slide_requested => previous_slide
  | list_themes_requested => list_themes
  | set_theme_requested theme_name => set_theme theme_name
  | create_theme_requested theme_data => create_theme theme_data
  | get_theme_details_requested theme_name => get_theme_details theme_name
  | update_theme_requested update_data => update_theme update_data
  | delete_theme_requested theme_name => delete_theme theme_name
  | duplicate_theme_requested existing_theme_name new_theme_name =>
      duplicate_theme existing_theme_name new_theme_name
  | set_item_theme_requested item_index theme_name =>
      set_item_theme item_index (Some theme_name)
  | get_item_theme_requested item_index => get_item_theme item_index
  | clear_item_theme_requested item_index => clear_item_theme item_index
  | conversion_completed pdf_path title =>
      _on_conversion_completed pdf_path title
  | conversion_failed error_message => _on_conversion_failed error_message
  end.


(** *** [conversion.py]: the code of the conversion thread

    The two conversion back ends (LibreOffice as a subprocess, then
    python-pptx with reportlab) are calls to the host; a back end
    reports a failure by returning [None]. *)

Definition exists_opt (p : option Path) : M bool :=
  match p with
  | Some pdf => query (path_exists pdf)
  | None => ret false
  end.

Definition _convert_ppt_to_pdf (ppt_path : Path) : M (option Path) :=
  libreoffice_result ← call (convert_with_libreoffice ppt_path);
  usable ← exists_opt libreoffice_result;
  if usable then ret libreoffice_result
  else call (convert_with_python_pptx ppt_path).

(** [convert_powerpoint] returns the signal it emits. *)
Definition convert_powerpoint (ppt_path : Path) (title : string)
    : M Msg :=
  try_except
    (pdf_path ← _convert_ppt_to_pdf ppt_path;
     usable ← exists_opt pdf_path;
     match pdf_path with
     | Some pdf =>
         if usable then ret (conversion_completed pdf title)
         else ret (conversion_failed
                     "Failed to convert PowerPoint file to PDF")
     | None =>
         ret (conversion_failed "Failed to convert PowerPoint file to PDF")
     end)
    (λ e, ret (conversion_failed ("Error during conversion: " +:+ e))).

End WithHost.
End MCPWorker.

(** ** The tool functions ([src/tools.py]) *)

Module MCPToolsManager.
Import Py Host MCPWorker.

(** Code of the server thread.  A tool emits request signals, which Qt
    queues for the privileged thread, and uses the worker's
    [threading.Event] and [current_result]. *)
Inductive Prog (A : Type) : Type :=
| Return (a : A)
| Emit (m : Msg) (k : Prog A)
| Clear (k : Prog A)
| Wait (timeout : nat) (k : bool → Prog A)
| Read (k : option Payload → Prog A)
| Throw (e : string).
Arguments Return {A} a.
Arguments Emit {A} m k.
Arguments Clear {A} k.
Arguments Wait {A} timeout k.
Arguments Read {A} k.
Arguments Throw {A} e.

Fixpoint bind {A B} (p : Prog A) (f : A → Prog B) : Prog B :=
  match p with
  | Return a => f a
  | Emit m k => Emit m (bind k f)
  | Clear k => Clear (bind k f)
  | Wait t k => Wait t (λ b, bind (k b) f)
  | Read k => Read (λ r, bind (k r) f)
  | Throw e => Throw e
  end.

(** What a tool returns: the value of [current_result], [None] when no
    result was ever stored. *)
Definition Result : Type := option Payload.

(** The two branches after [self.result_ready.wait(timeout)]. *)
Definition after_wait (message : string) (signaled : bool) : Prog Result :=
  if signaled then Read Return else Throw message.

(** [wait_for_result(timeout=10)] *)
Definition wait_for_result (timeout : option nat) : Prog Result :=
  Clear (Wait (default 10%nat timeout) (after_wait "Operation timed out")).

(** [wait_for_result_long(timeout=90)] *)
Definition wait_for_result_long (timeout : option nat) : Prog Result :=
  Clear (Wait (default 90%nat timeout)
           (after_wait "Long operation timed out")).

(** *** Service tools *)

Definition create_new_service : Prog Result :=
  Emit create_service_requested (wait_for_result None).

Definition load_service (file_path : string) : Prog Result :=
  Emit (load_service_requested file_path) (wait_for_result None).

Definition save_service (file_path : option string) : Prog Result :=
  Emit (save_service_requested (str_or file_path EmptyString))
    (wait_for_result None).

Definition get_service_items : Prog Result :=
  Emit get_service_items_requested (wait_for_result None).



(** *** Media tools *)






(** *** Slide and theme tools *)


Definition next_slide : Prog Result :=
  Emit next_slide_requested (wait_for_result None).

Definition previous_slide : Prog Result :=
  Emit previous_slide_requested (wait_for_result None).

Definition list_themes : Prog Result :=
  Emit list_themes_requested (wait_for_result None).

Definition set_service_theme (theme_name : string) : Prog Result :=
  Emit (set_theme_requested theme_name) (wait_for_result None).



Definition get_theme_details (theme_name : string) : Prog Result :=
  Emit (get_theme_details_requested theme_name) (wait_for_result None).


Definition delete_theme (theme_name : string) : Prog Result :=
  Emit (delete_theme_requested theme_name) (wait_for_result None).

Definition duplicate_theme (existing_theme_name new_theme_name : string)
    : Prog Result :=
  Emit (duplicate_theme_requested existing_theme_name new_theme_name)
    (wait_for_result None).

Definition set_item_theme (item_index : Z) (theme_name : string)
    : Prog Result :=
  Emit (set_item_theme_requested item_index theme_name)
    (wait_for_result None).

Definition get_item_theme (item_index : Z) : Prog Result :=
  Emit (get_item_theme_requested item_index) (wait_for_result None).

Definition clear_item_theme (item_index : Z) : Prog Result :=
  Emit (clear_item_theme_requested item_index) (wait_for_result None).

(** *** The registered tools

    A call of a registered tool with its arguments, and what the server
    runs for it; an answer is what the tool returned. *)





End MCPToolsManager.

(** ** The two threads, interleaved

    The server thread runs a tool, the privileged thread takes the queued
    signals one at a time and runs their slots, a conversion thread runs
    [convert_powerpoint] and posts the signal it emits, and time passes in
    seconds.  A schedule is a list of such steps. *)

Module Bridge.
Import Py Host MCPWorker MCPToolsManager.

Inductive Step : Type :=
| ServerStep
| MainStep
| Tick
| ConversionStep (ppt_path : Path) (title : string).

(** [log] records what the threads did on the host and what the
    worker emitted. *)
Record State (H A : Type) : Type := {
  world : World H;
  queue : list Msg;
  caller : Prog A;
  log : list Ev;
}.
Arguments world {H A} _.
Arguments queue {H A} _.
Arguments caller {H A} _.
Arguments log {H A} _.

(** [result_ready.clear()] *)
Definition clear_ready {H} (w : World H) : World H := {|
  self := {| current_result := current_result (self w);
             result_ready := false;
             conversion_thread := conversion_thread (self w);
             conversion_worker := conversion_worker (self w);
             pending_conversion_title :=
               pending_conversion_title (self w) |};
  app := app w |}.

Section WithHost.
Context {H : Type} (host : Host H) {A : Type}.

Definition continue (st : State H A) (p : Prog A) : State H A :=
  {| world := world st; queue := queue st; caller := p; log := log st |}.

(** One statement of the tool.  A wait returns [True] as soon as the
    flag is set, [False] once its time is used up, and blocks
    otherwise. *)
Definition server_step (st : State H A) : State H A :=
  match caller st with
  | Emit m k =>
      {| world := world st; queue := queue st ++ [m]; caller := k;
         log := log st |}
  | Clear k =>
      {| world := clear_ready (world st); queue := queue st;
         caller := k; log := log st |}
  | Wait n k =>
      if result_ready (self (world st)) then continue st (k true)
      else match n with
           | O => continue st (k false)
           | S _ => st
           end
  | Read k => continue st (k (current_result (self (world st))))
  | Return _ | Throw _ => st
  end.

(** The privileged thread runs the slot of the oldest queued signal;
    what the slot raises ends in Qt's event loop. *)
Definition main_step (st : State H A) : State H A :=
  match queue st with
  | [] => st
  | m :: rest =>
      {| world := after (slot host m (world st)); queue := rest;
         caller := caller st;
         log := log st ++ events (slot host m (world st)) |}
  end.

(** One second passes. *)
Definition tick (st : State H A) : State H A :=
  match caller st with
  | Wait (S n) k => continue st (Wait n k)
  | _ => st
  end.

Definition conversion_step (ppt_path : Path) (title : string)
    (st : State H A) : State H A :=
  let r := convert_powerpoint host ppt_path title (world st) in
  {| world := after r;
     queue := queue st ++ match outcome r with
                          | Ok m => [m]
                          | Raise _ => []
                          end;
     caller := caller st;
     log := log st ++ events r |}.

Definition step (st : State H A) (s : Step) : State H A :=
  match s with
  | ServerStep => server_step st
  | MainStep => main_step st
  | Tick => tick st
  | ConversionStep ppt_path title => conversion_step ppt_path title st
  end.

Definition run (schedule : list Step) (st : State H A) : State H A :=
  foldl step st schedule.

(** A tool called with an empty event queue. *)
Definition start (w : World H) (tool : Prog A) : State H A :=
  {| world := w; queue := []; caller := tool; log := [] |}.

End WithHost.


(** The tool has returned or raised. *)
Definition finished {A} (p : Prog A) : Prop :=
  match p with
  | Return _ | Throw _ => True
  | _ => False
  end.

(** The statements of a tool up to its first wait. *)
Inductive Action : Type :=
| AEmit (m : Msg)
| AClear
| AWait (timeout : nat)
| ARead.

Fixpoint actions {A} (p : Prog A) : list Action :=
  match p with
  | Emit m k => AEmit m :: actions k
  | Clear k => AClear :: actions k
  | Wait t _ => [AWait t]
  | Read _ => [ARead]
  | Return _ | Throw _ => []
  end.

End Bridge.

(** ** A small host

    A concrete host on which the slots can be run: a service, a theme
    store, a set of existing files, the active plugins and the running
    threads.  Its service manager ignores an index that is out of range
    when asked to select an item, and its registry raises for the keys
    listed in [missing]. *)

Module SimpleHost.
Import Py Host MCPWorker.

Record App : Type := {
  items : list Entry;
  themes : list string;
  current_theme : option string;
  files : list Path;
  plugins : list string;
  slides : option Z;
  running : list Thread;
  next_thread : nat;
  selected : option Z;
  live : option Z;
}.

Definition entry_of (item : NewItem) (position : nat) : Entry := {|
  service_item := {|
    title := default EmptyString (ni_title item);
    service_item_type := default Text (ni_type item);
    name := default (ni_plugin item) (ni_name item);
    theme := None;
    unique_identifier := "item-" +:+ pretty position |};
  order := Z.of_nat position |}.

Definition set_items (a : App) (l : list Entry) : App := {|
  items := l; themes := themes a; current_theme := current_theme a;
  files := files a; plugins := plugins a;
  slides := slides a; running := running a; next_thread := next_thread a;
  selected := selected a; live := live a |}.

Definition set_themes (a : App) (l : list string) : App := {|
  items := items a; themes := l; current_theme := current_theme a;
  files := files a; plugins := plugins a;
  slides := slides a; running := running a; next_thread := next_thread a;
  selected := selected a; live := live a |}.

Definition set_files (a : App) (l : list Path) : App := {|
  items := items a; themes := themes a; current_theme := current_theme a;
  files := l; plugins := plugins a;
  slides := slides a; running := running a; next_thread := next_thread a;
  selected := selected a; live := live a |}.

Definition set_threads (a : App) (l : list Thread) (n : nat) : App := {|
  items := items a; themes := themes a; current_theme := current_theme a;
  files := files a; plugins := plugins a;
  slides := slides a; running := l; next_thread := n;
  selected := selected a; live := live a |}.

Definition set_selection (a : App) (s l : option Z) : App := {|
  items := items a; themes := themes a; current_theme := current_theme a;
  files := files a; plugins := plugins a;
  slides := slides a; running := running a; next_thread := next_thread a;
  selected := s; live := l |}.

Definition set_item_theme_at (a : App) (i : nat) (t : option string)
    : App :=
  set_items a
    (alter (λ e, {| service_item := {|
                      title := title (service_item e);
                      service_item_type :=
                        service_item_type (service_item e);
                      name := name (service_item e);
                      theme := t;
                      unique_identifier :=
                        unique_identifier (service_item e) |};
                    order := order e |}) i (items a)).

(** The PDF a conversion back end writes next to the deck. *)
Definition converted (ppt_path : Path) : Path :=
  path_join (path_parent ppt_path) (path_stem ppt_path +:+ ".pdf").

Definition ask (missing : list string) (q : Query) (a : App)
    : Outcome (qret q) :=
  match q with
  | import_ _ => Ok tt
  | registry_get key =>
      if mem key missing
      then Raise ("'Service " +:+ key +:+ " not found in list'")
      else Ok tt
  | get_plugin_by_name plugin => Ok (mem plugin (plugins a))
  | plugin_is_active plugin => Ok (mem plugin (plugins a))
  | service_items => Ok (items a)
  | service_item_get_theme_data _ =>
      Ok ((λ t, [("theme_name", VStr t)]) <$> current_theme a)
  | live_service_item =>
      Ok (i ← live a;
          e ← items a !! Z.to_nat i;
          Some (unique_identifier (service_item e)))
  | settings_value _ => Ok VNone
  | get_theme_names => Ok (themes a)
  | global_theme => Ok (current_theme a)
  | get_theme_data theme_name =>
      Ok (if mem theme_name (themes a)
          then Some [("theme_name", VStr theme_name)] else None)
  | songs_get_all_objects _ => Ok []
  | pdf_controller_present => Ok true
  | pdf_controller_enabled => Ok true
  | doc_hasattr a => Ok (String.eqb a "get_slide_count")
  | doc_slide_count => Ok None
  | thread_isRunning t => Ok (bool_decide (t ∈ running a))
  | path_exists p => Ok (mem p (files a))
  | sha256_file_hash _ => Ok EmptyString
  | gettempdir => Ok "/tmp"
  | get_filename_from_url url => Ok (path_name url)
  end.

(** The value a command returns. *)
Definition result (c : Cmd) (a : App) : cret c :=
  match c with
  | generate_slide_data => true
  | add_document p => mem p (files a)
  | load_presentation => true
  | download_file _ _ => true
  | get_slide_count => slides a
  | get_page_count => None
  | pageCount => None
  | get_thumbnail_path _ => None
  | get_sha256_file_hash => EmptyString
  | QThread_new => next_thread a
  | ConversionWorker_new => next_thread a
  | convert_with_libreoffice ppt_path => Some (converted ppt_path)
  | convert_with_python_pptx _ => None
  | _ => tt
  end.

(** The change a command makes. *)
Definition effect (c : Cmd) (a : App) : App :=
  match c with
  | new_file => set_items a []
  | add_service_item item =>
      set_items a (items a ++ [entry_of item (length (items a))])
  | set_item index =>
      if valid_index index (items a)
      then set_selection a (Some index) (live a) else a
  | make_live => set_selection a (selected a) (selected a)
  | service_item_update_theme index theme_name =>
      set_item_theme_at a index theme_name
  | Host.delete_theme theme_name =>
      set_themes a (filter (λ t, t ≠ theme_name) (themes a))
  | clone_theme_data _ new_theme_name =>
      set_themes a (themes a ++ [new_theme_name])
  | save_theme theme =>
      match dict_get theme "theme_name" with
      | Some (VStr n) => set_themes a (themes a ++ [n])
      | _ => a
      end
  | QThread_new => set_threads a (running a) (S (next_thread a))
  | thread_start t => set_threads a (t :: running a) (next_thread a)
  | thread_quit t =>
      set_threads a (filter (λ r, r ≠ t) (running a)) (next_thread a)
  | convert_with_libreoffice ppt_path =>
      set_files a (converted ppt_path :: files a)
  | download_file _ dest => set_files a (dest :: files a)
  | _ => a
  end.

Definition exec (c : Cmd) (a : App) : Outcome (cret c) * App :=
  (Ok (result c a), effect c a).

(** The host whose registry lacks the keys in [missing]. *)
Definition host (missing : list string) : Host App := {|
  Host.ask := ask missing;
  Host.exec := exec;
  str_item_type := λ t, match t with
                        | Text => "ServiceItemType.Text"
                        | Image => "ServiceItemType.Image"
                        | Command => "ServiceItemType.Command"
                        end |}.

Definition empty : App := {|
  items := []; themes := ["Default"]; current_theme := Some "Default";
  files := []; plugins := ["songs"; "custom"; "images"; "media";
                           "presentations"];
  slides := Some 1; running := []; next_thread := 0;
  selected := None; live := None |}.

(** A service of three custom slides. *)
Definition three_items : App :=
  set_items empty
    ((λ i, entry_of {| ni_plugin := "custom";
                       ni_title := Some ("Slide " +:+ pretty i);
                       ni_name := Some "custom";
                       ni_type := Some Text;
                       ni_processor := None;
                       ni_sha256_file_hash := None |} i) <$> seq 0 3).

(** A fresh worker on a host state. *)
Definition world (a : App) : World App :=
  {| self := init; app := a |}.

(** The privileged thread handles the given signals in order. *)
Fixpoint handle (missing : list string) (ms : list Msg) : M unit :=
  match ms with
  | [] => ret tt
  | m :: rest =>
      λ w, preceded (events (slot (host missing) m w))
             (handle missing rest (after (slot (host missing) m w)))
  end.

End SimpleHost.

(** ** Two overlapping conversions

    Deck A is submitted on a fresh worker; while its thread is running,
    a tool submits deck B.  The privileged thread handles B's request,
    then A's conversion thread reports its PDF, and the privileged
    thread handles that completion before the tool reads its result. *)

Module Overlap.
Import Py Host MCPWorker Bridge.




Definition schedule : list Step :=
  [ServerStep; ServerStep; MainStep;
   ConversionStep "A.pptx" "A (converted)"; MainStep;
   ServerStep; ServerStep].


End Overlap.

(** ** Two more states of the small host *)

Module Samples.
Import Py Host MCPWorker.

(** A tool inside its wait while the result is signaled. *)
Definition signaled : Bridge.State SimpleHost.App MCPToolsManager.Result :=
  Bridge.run (SimpleHost.host [])
    [Bridge.ServerStep; Bridge.ServerStep; Bridge.MainStep]
    (Bridge.start (SimpleHost.world SimpleHost.empty)
       MCPToolsManager.create_new_service).


End Samples.

(** ** Names for downloads ([src/url_utils.py])

    [urlparse], the HEAD request of [get_content_type_from_url] and the
    built-in [hash] are taken as given: [urlparse] yields the network
    location and the path of a URL or raises, the request yields the
    lower-cased content type or [None], and [hash] yields an integer. *)

Module UrlUtils.
Import Py.

(** The dictionary [content_type_map]. *)
Definition content_type_map : list (string * string) :=
  [("image/jpeg", ".jpg"); ("image/jpg", ".jpg"); ("image/png", ".png");
   ("image/gif", ".gif"); ("image/bmp", ".bmp"); ("image/tiff", ".tiff");
   ("image/tif", ".tiff"); ("image/webp", ".webp");
   ("image/svg+xml", ".svg");
   ("video/mp4", ".mp4"); ("video/avi", ".avi");
   ("video/quicktime", ".mov"); ("video/x-msvideo", ".avi");
   ("video/x-ms-wmv", ".wmv"); ("video/x-flv", ".flv");
   ("video/webm", ".webm"); ("video/3gpp", ".3gp");
   ("video/x-matroska", ".mkv");
   ("audio/mpeg", ".mp3"); ("audio/mp3", ".mp3"); ("audio/wav", ".wav");
   ("audio/wave", ".wav"); ("audio/x-wav", ".wav"); ("audio/ogg", ".ogg");
   ("audio/flac", ".flac"); ("audio/aac", ".aac"); ("audio/mp4", ".m4a");
   ("audio/x-ms-wma", ".wma");
   ("application/pdf", ".pdf");
   ("application/vnd.openxmlformats-officedocument.presentationml.presentation",
    ".pptx");
   ("application/vnd.ms-powerpoint", ".ppt");
   ("application/vnd.ms-powerpoint.presentation.macroEnabled.12", ".pptm");
   ("application/vnd.oasis.opendocument.presentation", ".odp");
   ("application/xml", ".osz"); ("text/xml", ".osz");
   ("application/zip", ".osz")].

(** [d.get(k)] on a dictionary from strings to strings. *)
Fixpoint map_get (d : list (string * string)) (k : string)
    : option string :=
  match d with
  | [] => None
  | (k', v) :: d' => if String.eqb k' k then Some v else map_get d' k
  end.

Definition get_extension_from_content_type (content_type : option string)
    : string :=
  match content_type with
  | None => ".tmp"
  | Some content_type =>
      if negb (nonempty content_type) then ".tmp"
      else
        let content_type :=
          strip (hd EmptyString (split ";" content_type)) in
        default ".tmp" (map_get content_type_map content_type)
  end.

(** [any(pattern in s for pattern in patterns)] *)
Definition any_in (patterns : list string) (s : string) : bool :=
  existsb (λ pattern, contains pattern s) patterns.

(** What the plugin reads of [urlparse(url)]. *)
Record ParseResult : Type := {
  netloc : string;
  path : string;
}.

Section WithLibrary.
Variable urlparse : string → Outcome ParseResult.
Variable get_content_type_from_url : string → option string.
Variable hash : string → Z.

Definition guess_extension_from_url_patterns (url : string)
    : Outcome string :=
  let url_lower := lower url in
  if any_in ["image"; "photo"; "pic"; "img"] url_lower then Ok ".jpg"
  else if any_in ["video"; "vid"; "movie"] url_lower then Ok ".mp4"
  else if any_in ["audio"; "sound"; "music"] url_lower then Ok ".mp3"
  else if any_in ["presentation"; "slide"; "ppt"] url_lower then Ok ".pdf"
  else if any_in ["service"; "osz"] url_lower then Ok ".osz"
  else
    match urlparse url with
    | Raise e => Raise e
    | Ok parsed =>
        let domain := lower (netloc parsed) in
        if (contains "unsplash" domain || contains "pixabay" domain
            || contains "pexels" domain)%bool then Ok ".jpg"
        else if (contains "youtube" domain || contains "vimeo" domain)%bool
        then Ok ".mp4"
        else if (contains "soundcloud" domain
                 || contains "spotify" domain)%bool
        then Ok ".mp3"
        else Ok ".tmp"
    end.

(** [f"{kind}_{hash(url) % 10000}"] *)
Definition numbered (kind url : string) : string :=
  kind +:+ "_" +:+ str_of_int (hash url mod 10000).

(** [extension.startswith('.') and extension[1:] in kinds] *)
Definition dotted_in (extension : string) (kinds : list string) : bool :=
  (String.prefix "." extension
   && mem (String.substring 1 (String.length extension - 1) extension)
        kinds)%bool.

(** The name generated for a URL whose path has no file name. *)
Definition base_name_for (extension url : string) : string :=
  if (String.eqb extension ".jpg"
      || dotted_in extension ["png"; "gif"; "bmp"; "webp"; "svg"])%bool
  then numbered "image" url
  else if dotted_in extension
            ["mp4"; "avi"; "mov"; "mkv"; "wmv"; "flv"; "webm"]
  then numbered "video" url
  else if dotted_in extension
            ["mp3"; "wav"; "ogg"; "flac"; "aac"; "m4a"; "wma"]
  then numbered "audio" url
  else if mem extension [".pptx"; ".ppt"; ".pdf"]
  then numbered "presentation" url
  else if String.eqb extension ".osz" then numbered "service" url
  else numbered "download" url.

Definition get_filename_from_url (url : string) : string :=
  let fallback := numbered "download" url +:+ ".tmp" in
  match urlparse url with
  | Raise _ => fallback
  | Ok parsed =>
      let filename := path_name (path parsed) in
      if (nonempty filename && contains "." filename)%bool then filename
      else
        let content_type := get_content_type_from_url url in
        let extension := get_extension_from_content_type content_type in
        match (if String.eqb extension ".tmp"
               then guess_extension_from_url_patterns url
               else Ok extension) with
        | Raise _ => fallback
        | Ok extension =>
            let base_name :=
              if nonempty filename then filename
              else base_name_for extension url in
            base_name +:+ extension
        end
  end.

End WithLibrary.

End UrlUtils.

(** ** The python-pptx fallback of [conversion.py]

    [_convert_with_python_pptx] writes the text of the slides on a
    reportlab canvas.  [draw] is the sequence of calls it makes on the
    canvas for the slides of a deck, as long as none of them raises;
    [height] is the height of the page size [letter]. *)

Module Fallback.
Import Py.

Inductive CanvasCall : Type :=
| drawString (x y : Z) (text : string)
| showPage
| save.

(** [shape.text] of a shape that has the attribute. *)
Definition Shape : Type := option string.
Definition Slide : Type := list Shape.

Section Page.
Variable height : Z.

(** The loop over the lines of one shape; it returns the position
    reached. *)
Fixpoint draw_lines (text_lines : list string) (y_position : Z)
    : list CanvasCall * Z :=
  match text_lines with
  | [] => ([], y_position)
  | line :: rest =>
      if (nonempty (strip line) && Z.ltb 50 y_position)%bool then
        let '(calls, y) := draw_lines rest (y_position - 20) in
        (drawString 50 y_position (String.substring 0 80 line) :: calls, y)
      else draw_lines rest y_position
  end.

(** The loop over the shapes of one slide. *)
Fixpoint draw_shapes (shapes : list Shape) (y_position : Z)
    : list CanvasCall * Z :=
  match shapes with
  | [] => ([], y_position)
  | Some text :: rest =>
      if nonempty (strip text) then
        let '(calls, y) := draw_lines (split nl (strip text)) y_position in
        let '(calls', y') := draw_shapes rest y in
        ((calls ++ calls')%list, y')
      else draw_shapes rest y_position
  | None :: rest => draw_shapes rest y_position
  end.

(** The body of the loop over the slides, for slide [i] (from 0). *)
Definition draw_slide (i : nat) (slide : Slide) : list CanvasCall :=
  (drawString 50 (height - 50) ("Slide " +:+ str_of_int (Z.of_nat i + 1))
   :: (draw_shapes slide (height - 100)).1 ++ [showPage])%list.

Definition draw (slides : list Slide) : list CanvasCall :=
  (concat (imap draw_slide slides) ++ [save])%list.

End Page.

(** The lines of text of a slide, in order: those of the stripped text
    of every shape that has text. *)
Definition all_lines (slide : Slide) : list string :=
  slide ≫= λ shape,
    match shape with
    | Some text =>
        if nonempty (strip text) then split nl (strip text) else []
    | None => []
    end.

(** The lines among them that are not blank. *)
Definition text_lines (slide : Slide) : list string :=
  filter (λ line, nonempty (strip line)) (all_lines slide).

(** The body line drawn [k] lines below [y]. *)
Definition line_at (y : Z) (k : nat) (line : string) : CanvasCall :=
  drawString 50 (y - 20 * Z.of_nat k) (String.substring 0 80 line).

(** The number of lines that fit on a page below the slide number:
    one every 20 points from [height - 100] down, above 50. *)
Definition room (height : Z) : nat := Z.to_nat ((height - 131) / 20).

End Fallback.

(** ** More predicates used in the statements *)

Module Effects.
Import Py Host MCPWorker.



(** Code that stores what it emits: after it, [current_result] holds
    the last payload emitted and the flag is set; code that emitted
    nothing leaves both as they were. *)
Definition records {H A} (m : @M H A) : Prop :=
  ∀ w, match last (signals (events (m w))) with
       | Some p =>
           current_result (self (after (m w))) = Some p
           ∧ result_ready (self (after (m w))) = true
       | None =>
           current_result (self (after (m w))) = current_result (self w)
           ∧ result_ready (self (after (m w))) = result_ready (self w)
       end.


(** The slides of text added among some events. *)
Definition texts (tr : list Ev) : list string :=
  omap (λ e, match e with
             | EvExec (add_from_text text) => Some text
             | _ => None
             end) tr.

(** The verses [_create_song_placeholder] finds in lyrics: the blocks
    between blank lines, stripped, the empty ones left out. *)
Definition verses (lyrics : string) : list string :=
  filter (λ verse, nonempty verse) (strip <$> split (nl +:+ nl) lyrics).

End Effects.

(** ** More inputs for the small host *)

Module Cases.
Import Py Host MCPWorker.

(** What [urlparse] yields for a URL of a hymn. *)
Definition hymn_url : UrlUtils.ParseResult :=
  {| UrlUtils.netloc := "example.org"; UrlUtils.path := "/media/hymn.mp3" |}.

(** Lyrics of two verses with a blank block between them. *)
Definition two_verses : string :=
  "Amazing grace" +:+ nl +:+ nl +:+ "  " +:+ nl +:+ nl
  +:+ "How sweet the sound" +:+ nl.

(** A theme whose background image is not on the disk. *)
Definition dawn : Dict :=
  [("theme_name", VStr "Dawn"); ("background_type", VStr "image");
   ("background_image_path", VStr "missing.png")].

(** A world in which LibreOffice can convert the deck. *)
Definition with_deck : World SimpleHost.App :=
  SimpleHost.world
    (SimpleHost.set_files SimpleHost.empty ["/decks/A.pptx"]).

End Cases.

(** ** Predicates used in the statements *)

Module Props.
Import Py Host MCPWorker MCPToolsManager Bridge.







(** Code that emits nothing. *)
Definition silent {H A} (m : @M H A) : Prop :=
  ∀ w, signals (events (m w)) = [].

(** Code that emits exactly one result when it returns and none when it
    raises: the body of a guarded slot. *)
Definition once {H} (m : @M H unit) : Prop :=
  ∀ w, match outcome (m w) with
       | Ok _ => ∃ p, signals (events (m w)) = [p]
       | Raise _ => signals (events (m w)) = []
       end.

(** Code that never raises and emits exactly one result. *)
Definition answers {H} (m : @M H unit) : Prop :=
  ∀ w, outcome (m w) = Ok tt ∧ ∃ p, signals (events (m w)) = [p].



(** A host none of whose calls raises. *)
Definition reliable {H} (host : Host H) : Prop :=
  (∀ q a e, ask host q a ≠ Raise e)
  ∧ (∀ c a e, (exec host c a).1 ≠ Raise e).





End Props.

(** ** The wait and the order of a submit *)

Module BridgeFacts.
Import Py Host MCPWorker MCPToolsManager Bridge Props.

Section WithHost.
Context {H : Type} (host : Host H).

Lemma run_app {A} (s1 s2 : list Step) (st : State H A) :
  run host (s1 ++ s2) st = run host s2 (run host s1 st).
Proof. unfold run. apply foldl_app. Qed.


Lemma caller_conversion_step {A} ppt_path title (st : State H A) :
  caller (conversion_step host ppt_path title st) = caller st.
Proof.
  reflexivity.
Qed.









Lemma ticks_count_down {A} n (k : bool → Prog A) (j : nat)
    (st : State H A) :
  caller st = Wait n k →
  run host (replicate j Tick) st = continue st (Wait (n - j) k).
Proof.
  revert n st. induction j as [|j IH]; intros n st Hc; simpl.
  - replace (n - 0)%nat with n by lia.
    destruct st; simpl in *; subst; reflexivity.
  - unfold tick at 1. rewrite Hc. destruct n; simpl.
    + rewrite (IH O st Hc). reflexivity.
    + rewrite (IH n (continue st (Wait n k)) eq_refl). reflexivity.
Qed.



(** *** Only the timeout reaches the caller *)








(** *** The order of a submit *)

(** When the privileged thread runs the slot between the tool's emit
    and the tool's clear, the clear erases the signal and the tool
    times out, whatever the slot did. *)
Lemma result_lost_when_handled_early (m : Msg) (t : nat)
    (message : string) (w : World H) :
  let st := run host ([ServerStep; MainStep; ServerStep]
                      ++ replicate t Tick ++ [ServerStep])
              (start w (Emit m (Clear (Wait t (after_wait message))))) in
  caller st = Throw message
  ∧ world st = clear_ready (after (slot host m w))
  ∧ log st = events (slot host m w).
Proof.
  intros st. subst st. rewrite !run_app.
  set (st3 := run host [ServerStep; MainStep; ServerStep] _).
  assert (caller st3 = Wait t (after_wait message)) as Hc by reflexivity.
  assert (result_ready (self (world st3)) = false) as Hr by reflexivity.
  rewrite (ticks_count_down t _ t st3 Hc).
  replace (t - t)%nat with O by lia.
  cbn [run foldl step]. unfold server_step. cbn [caller continue world].
  rewrite Hr. cbn.
  split; [reflexivity | split; reflexivity].
Qed.

End WithHost.
End BridgeFacts.

Module WorkerFacts.
Import Py Host MCPWorker Props.

(** Symbolic execution of a slot: unfold the monad, then split on the
    result of the next collaborator call or test. *)
Ltac reduce_monad :=
  unfold emit, _handle_result, try_pass in *;
  unfold try_except, bind, ret, raise, log_ev, query, call, get_self,
    set_self, preceded in *;
  cbn [outcome after events self app fst snd for_each negb andb orb
       List.app current_result result_ready conversion_thread
       conversion_worker pending_conversion_title] in *.

Ltac reduce :=
  reduce_monad; cbn [signals commands omap list_omap] in *.

Ltac branch_with simp :=
  match goal with
  | Hq : ask ?h ?q ?a = _ |- context [ask ?h ?q ?a] => rewrite Hq
  | |- context [match ask ?h ?q ?a with _ => _ end] =>
      destruct (ask h q a) eqn:?
  | |- context [match exec ?h ?c ?a with _ => _ end] =>
      destruct (exec h c a) as [[?|?] ?] eqn:?
  | |- context [if ?b then _ else _] => destruct b eqn:?
  | |- context [match ?x with _ => _ end] => is_var x; destruct x eqn:?
  | |- context [match ?l !! ?i with _ => _ end] => destruct (l !! i) eqn:?
  | |- context [match conversion_thread ?s with _ => _ end] =>
      destruct (conversion_thread s) eqn:?
  end; simp tt.

Ltac branch := branch_with ltac:(fun _ => reduce).

Ltac execute := reduce; repeat branch.

(** Turn the boolean tests met on the way into facts. *)
Ltac facts :=
  repeat match goal with
  | Hx : Raise _ = Ok _ |- _ => discriminate Hx
  | Hx : Ok _ = Raise _ |- _ => discriminate Hx
  | Hx : Ok _ = Ok _ |- _ => inversion Hx; subst; clear Hx
  | Hx : Raise _ = Raise _ |- _ => inversion Hx; subst; clear Hx
  | Hx : _ ∈ [] |- _ => apply elem_of_nil in Hx; contradiction
  | Hx : negb _ = true |- _ => apply negb_true_iff in Hx
  | Hx : negb _ = false |- _ => apply negb_false_iff in Hx
  end.

Section WithHost.
Context {H : Type} (host : Host H).

Lemma mem_true x xs : mem x xs = true → x ∈ xs.
Proof. unfold mem. apply bool_decide_eq_true_1. Qed.

Lemma mem_false x xs : mem x xs = false → x ∉ xs.
Proof. unfold mem. apply bool_decide_eq_false_1. Qed.


(** *** The error boundary *)

Lemma try_except_ok {A} (body : M A) handler (w : World H) a :
  outcome (body w) = Ok a → try_except body handler w = body w.
Proof.
  unfold try_except. destruct (body w) as [o w' es]; simpl.
  intros ->. reflexivity.
Qed.


Lemma guarded_total (body : M unit) (f : string → Payload)
    (w : World H) :
  outcome (try_except body (λ e, emit (f e)) w) = Ok tt.
Proof.
  unfold try_except. destruct (body w) as [[[]|e] w' es]; reflexivity.
Qed.







(** *** Listing the service *)

(** C7 (as amended).  [get_service_items] never raises and executes
    no command.  When the service manager can be read, the result is
    the list of one record per service item, in the order of the
    service, and every record has the keys title, type, plugin and
    order; on a fault the result is a list with one record, whose
    only key is error and whose value is the fault's text. *)
Theorem get_service_items_result (w : World H) :
  let r := get_service_items host w in
  outcome r = Ok tt
  ∧ commands (events r) = []
  ∧ (∀ entries : list Entry,
       ask host (registry_get "service_manager") (app w) = Ok tt →
       ask host service_items (app w) = Ok entries →
       signals (events r) = [PDicts (item_record host <$> entries)]
       ∧ length (item_record host <$> entries) = length entries
       ∧ ∀ i entry, entries !! i = Some entry →
           (item_record host <$> entries) !! i
           = Some [("title", VStr (title (service_item entry)));
                   ("type", VStr (str_item_type host
                                    (service_item_type
                                       (service_item entry))));
                   ("plugin", VStr (name (service_item entry)));
                   ("order", VInt (order entry))])
  ∧ (∀ e,
       ask host (registry_get "service_manager") (app w) = Raise e
       ∨ (ask host (registry_get "service_manager") (app w) = Ok tt
          ∧ ask host service_items (app w) = Raise e) →
       signals (events r) = [PDicts [[("error", VStr e)]]]).
Proof.
  unfold get_service_items. execute.
  all: split; [reflexivity|]; split; [reflexivity|]; split.
  all: try (intros e' [H1 | [H1 H2]]; facts; reflexivity).
  all: try (intros entries H1 H2; facts; fail).
  intros entries _ H2. facts.
  split; [reflexivity|]. split; [apply length_fmap|].
  intros i entry Hi. cbn [qret] in *.
  rewrite list_lookup_fmap, Hi. reflexivity.
Qed.

(** *** Going live *)

(** [go_live] passes the index to the service manager unchecked: its
    answer is the confirmation unless a collaborator raises. *)
Lemma go_live_answers (item_index : Z) (w : World H) :
  let r := go_live host item_index w in
  outcome r = Ok tt
  ∧ (signals (events r)
     = [PStr ("Item " +:+ str_of_int item_index +:+ " is now live")]
     ∨ ∃ e, signals (events r) = [PStr ("Error going live: " +:+ e)])
  ∧ (ask host (registry_get "service_manager") (app w) = Ok tt →
     (∀ a e, (exec host (set_item item_index) a).1 ≠ Raise e) →
     (∀ a e, (exec host make_live a).1 ≠ Raise e) →
     signals (events r)
     = [PStr ("Item " +:+ str_of_int item_index +:+ " is now live")]).
Proof.
  unfold go_live. execute.
  all: split; [reflexivity|]; split.
  all: try (left; reflexivity).
  all: try (right; eexists; reflexivity).
  all: try (intros; reflexivity).
  all: intros H1 H2 H3; facts.
  - exfalso. eapply (H3 h). rewrite Heqp0. reflexivity.
  - exfalso. eapply (H2 (app w)). rewrite Heqp. reflexivity.
Qed.

(** *** Clearing an item's theme *)

Lemma set_item_theme_total item_index theme_name (w : World H) :
  outcome (set_item_theme host item_index theme_name w) = Ok tt.
Proof. apply guarded_total. Qed.

(** C10.  [clear_item_theme] runs exactly as [set_item_theme] with
    no theme name: the same index check, the same calls, the same
    result.  With no theme name the theme manager is never consulted;
    an invalid index is answered with the invalid-index text and no
    command; otherwise the only theme update is the one that clears
    the item's own theme. *)
Theorem clear_item_theme_is_set_none (item_index : Z) (w : World H) :
  let r := set_item_theme host item_index None w in
  clear_item_theme host item_index w = r
  ∧ slot host (clear_item_theme_requested item_index) w = r
  ∧ outcome r = Ok tt
  ∧ (EvAsk (registry_get "theme_manager") ∉ events r)
  ∧ (∀ index theme_name,
       service_item_update_theme index theme_name ∈ commands (events r) →
       index = Z.to_nat item_index ∧ theme_name = None)
  ∧ (∀ items,
       ask host (import_ "openlp.core.common.registry") (app w) = Ok tt →
       ask host (registry_get "service_manager") (app w) = Ok tt →
       ask host service_items (app w) = Ok items →
       valid_index item_index items = false →
       events r
       = [EvAsk (import_ "openlp.core.common.registry");
          EvAsk (registry_get "service_manager");
          EvAsk service_items;
          EvSignal (PStr ("Invalid item index: "
                          +:+ str_of_int item_index))]).
Proof.
  intros r.
  assert (clear_item_theme host item_index w = r) as Heq.
  { unfold clear_item_theme.
    apply (try_except_ok _ _ _ tt), set_item_theme_total. }
  split; [exact Heq|]. split; [exact Heq|].
  split; [apply set_item_theme_total|].
  subst r. clear Heq.
  unfold set_item_theme, refresh_if_live, item_at. execute.
  all: split;
    [rewrite ?not_elem_of_cons; repeat split; try discriminate;
     apply not_elem_of_nil|].
  all: split;
    [intros index theme_name Hin;
     rewrite ?elem_of_cons, elem_of_nil in Hin;
     repeat match goal with
            | Hx : _ ∨ _ |- _ => destruct Hx as [Hx | Hx]
            end;
     try discriminate; try contradiction;
     inversion Hin; split; reflexivity|].
  all: intros items H1 H2 H3 Hv; facts; try reflexivity; congruence.
Qed.

(** *** Counting the signals of a slot *)

Lemma signals_app (l1 l2 : list Ev) :
  signals (l1 ++ l2) = (signals l1 ++ signals l2)%list.
Proof. apply omap_app. Qed.

Lemma commands_app (l1 l2 : list Ev) :
  commands (l1 ++ l2) = (commands l1 ++ commands l2)%list.
Proof. apply omap_app. Qed.

Lemma events_preceded {A} es (r : Run H A) :
  events (preceded es r) = (es ++ events r)%list.
Proof. destruct r; reflexivity. Qed.

Lemma outcome_preceded {A} es (r : Run H A) :
  outcome (preceded es r) = outcome r.
Proof. destruct r; reflexivity. Qed.

Lemma after_preceded {A} es (r : Run H A) :
  after (preceded es r) = after r.
Proof. destruct r; reflexivity. Qed.

Lemma silent_ret {A} (a : A) : silent (ret (H:=H) a).
Proof. intros w; reflexivity. Qed.

Lemma silent_raise {A} e : silent (raise (H:=H) (A:=A) e).
Proof. intros w; reflexivity. Qed.

Lemma silent_query q : silent (query host q).
Proof. intros w; reflexivity. Qed.

Lemma silent_call c : silent (call host c).
Proof. intros w; unfold call. destruct (exec host c (app w)); reflexivity. Qed.

Lemma silent_bind {A B} (m : @M H A) (f : A → @M H B) :
  silent m → (∀ a, silent (f a)) → silent (bind m f).
Proof.
  intros Hm Hf w. unfold bind. specialize (Hm w).
  destruct (m w) as [[a|e] w' es]; simpl in *; [|exact Hm].
  rewrite events_preceded, signals_app, Hm, (Hf a w'). reflexivity.
Qed.

Lemma silent_try {A} (body : @M H A) handler :
  silent body → (∀ e, silent (handler e)) →
  silent (try_except body handler).
Proof.
  intros Hb Hh w. unfold try_except. specialize (Hb w).
  destruct (body w) as [[a|e] w' es]; simpl in *; [exact Hb|].
  rewrite events_preceded, signals_app, Hb, (Hh e w'). reflexivity.
Qed.

Lemma silent_for_each {A} (xs : list A) (body : A → @M H unit) :
  (∀ x, silent (body x)) → silent (for_each xs body).
Proof.
  intros Hb. induction xs as [|x xs IH]; simpl.
  - apply silent_ret.
  - apply silent_bind; [apply Hb | intros _; exact IH].
Qed.

Lemma once_emit p : once (emit (H:=H) p).
Proof. intros w. simpl. eexists; reflexivity. Qed.

Lemma once_bind {A} (m : @M H A) (f : A → @M H unit) :
  silent m → (∀ a, once (f a)) → once (bind m f).
Proof.
  intros Hm Hf w. unfold bind. specialize (Hm w).
  destruct (m w) as [[a|e] w' es]; simpl in *; [|exact Hm].
  rewrite outcome_preceded, events_preceded, signals_app, Hm.
  apply Hf.
Qed.

Lemma once_try (body : @M H unit) handler :
  once body → (∀ e, once (handler e)) → once (try_except body handler).
Proof.
  intros Hb Hh w. unfold try_except. specialize (Hb w).
  destruct (body w) as [[a|e] w' es]; simpl in *; [exact Hb|].
  rewrite outcome_preceded, events_preceded, signals_app, Hb.
  apply Hh.
Qed.

Lemma answers_guard (body : @M H unit) (f : string → Payload) :
  once body → answers (try_except body (λ e, emit (f e))).
Proof.
  intros Hb w. split; [apply guarded_total|].
  unfold try_except. specialize (Hb w).
  destruct (body w) as [[a|e] w' es]; cbn [outcome events] in *;
    [exact Hb|].
  rewrite events_preceded, signals_app, Hb. eexists; reflexivity.
Qed.

Lemma answers_once (m : @M H unit) : answers m → once m.
Proof.
  intros Hm w. destruct (Hm w) as [-> Hp]. exact Hp.
Qed.

End WithHost.

(** Decompose a goal about the signals of a piece of code along the
    structure of the code. *)
Ltac effects :=
  repeat first
    [ apply silent_ret | apply silent_raise
    | match goal with
      | |- silent (query ?h ?q) => exact (silent_query h q)
      | |- silent (call ?h ?c) => exact (silent_call h c)
      end
    | apply silent_for_each; intros
    | apply silent_try; [|intros]
    | apply silent_bind; [|intros]
    | apply once_emit
    | apply answers_once, answers_guard
    | apply once_try; [|intros]
    | apply once_bind; [|intros]
    | apply answers_guard
    | match goal with
      | |- context [if ?b then _ else _] => destruct b
      | |- context [match ?x with _ => _ end] => destruct x
      end ].

Section Media.
Context {H : Type} (host : Host H).

Lemma silent_resolve_file_path file_path :
  silent (resolve_file_path host file_path).
Proof. unfold resolve_file_path, try_pass. effects. Qed.












End Media.

(** *** The conversion callbacks *)

Section Conversion.
Context {H : Type} (host : Host H).









End Conversion.


Section SingleFlight.
Context {H : Type} (host : Host H).




End SingleFlight.

(** *** Routing by extension *)

Ltac sure_with simp Hrel :=
  repeat (branch_with simp;
          try (exfalso;
               match goal with
               | Hq : ask _ ?q ?a = Raise ?e |- _ =>
                   exact (proj1 Hrel q a e Hq)
               | Hp : exec _ ?c ?a = (Raise ?e, _) |- _ =>
                   apply (proj2 Hrel c a e); rewrite Hp; reflexivity
               end)).




Section Routing.
Context {H : Type} (host : Host H).


Lemma audio_is_not_video extension :
  mem extension audio_extensions = true →
  mem extension video_extensions = false.
Proof.
  intros Hm. apply mem_true in Hm. unfold audio_extensions in Hm.
  rewrite ?elem_of_cons, elem_of_nil in Hm.
  repeat match goal with
         | Hx : _ ∨ _ |- _ => destruct Hx as [Hx | Hx]
         end;
    try contradiction; subst; reflexivity.
Qed.








Lemma commands_cons_ask q l : commands (EvAsk q :: l) = commands l.
Proof. reflexivity. Qed.

Lemma commands_cons_exec c l :
  commands (EvExec c :: l) = c :: commands l.
Proof. reflexivity. Qed.

Lemma commands_cons_signal p l :
  commands (EvSignal p :: l) = commands l.
Proof. reflexivity. Qed.






End Routing.
End WorkerFacts.

(** ** The error boundary, end to end *)

Module Boundary.
Import Py Host MCPWorker Props.

Section WithHost.
Context {H : Type} (host : Host H).


End WithHost.
End Boundary.

(** ** The statements at work on the small host *)

Module Scenarios.
Import Py Host MCPWorker Props.

(** C4.  [create_new_service] emits its request first and clears the
    event afterwards, inside [wait_for_result].  When the privileged
    thread runs the slot between the two, the slot's signal is erased:
    the tool times out although the result was emitted and is stored.
    When the slot runs after the clear, the tool returns the result. *)
Theorem create_new_service_result_lost :
  Bridge.actions MCPToolsManager.create_new_service
  = [Bridge.AEmit create_service_requested; Bridge.AClear;
     Bridge.AWait 10]
  ∧ (let st :=
       Bridge.run (SimpleHost.host [])
         ([Bridge.ServerStep; Bridge.MainStep; Bridge.ServerStep]
          ++ replicate 10 Bridge.Tick ++ [Bridge.ServerStep])
         (Bridge.start (SimpleHost.world SimpleHost.empty)
            MCPToolsManager.create_new_service) in
     Bridge.caller st = MCPToolsManager.Throw "Operation timed out"
     ∧ signals (Bridge.log st)
       = [PStr "New service created successfully"]
     ∧ current_result (self (Bridge.world st))
       = Some (PStr "New service created successfully")
     ∧ result_ready (self (Bridge.world st)) = false)
  ∧ (let st :=
       Bridge.run (SimpleHost.host [])
         [Bridge.ServerStep; Bridge.ServerStep; Bridge.MainStep;
          Bridge.ServerStep; Bridge.ServerStep]
         (Bridge.start (SimpleHost.world SimpleHost.empty)
            MCPToolsManager.create_new_service) in
     Bridge.caller st
     = MCPToolsManager.Return
         (Some (PStr "New service created successfully"))).
Proof. vm_compute. repeat split. Qed.

(** C9.  On a service of three items, [go_live] with index 99 answers
    that item 99 is live: it has no range check, and the service
    manager ignores the index.  The two per-item theme slots answer the
    same index with the invalid-index text. *)
Theorem go_live_ignores_the_range :
  let w := SimpleHost.world SimpleHost.three_items in
  length (SimpleHost.items SimpleHost.three_items) = 3%nat
  ∧ valid_index 99 (SimpleHost.items SimpleHost.three_items) = false
  ∧ signals (events (slot (SimpleHost.host []) (go_live_requested 99) w))
    = [PStr "Item 99 is now live"]
  ∧ signals (events (slot (SimpleHost.host [])
                       (set_item_theme_requested 99 "Default") w))
    = [PStr "Invalid item index: 99"]
  ∧ signals (events (slot (SimpleHost.host [])
                       (get_item_theme_requested 99) w))
    = [PStr "Invalid item index: 99"].
Proof. vm_compute. repeat split. Qed.




(** Against C7 as stated: the records carry the key plugin, not
    source, and the result on a fault is a list of one record, not an
    empty list. *)
Lemma service_item_records_differ :
  signals (events (slot (SimpleHost.host []) get_service_items_requested
                     (SimpleHost.world SimpleHost.three_items)))
  = [PDicts
       [[("title", VStr "Slide 0"); ("type", VStr "ServiceItemType.Text");
         ("plugin", VStr "custom"); ("order", VInt 0)];
        [("title", VStr "Slide 1"); ("type", VStr "ServiceItemType.Text");
         ("plugin", VStr "custom"); ("order", VInt 1)];
        [("title", VStr "Slide 2"); ("type", VStr "ServiceItemType.Text");
         ("plugin", VStr "custom"); ("order", VInt 2)]]]
  ∧ keys (item_record (SimpleHost.host [])
            {| service_item := {| title := "Slide 0";
                                  service_item_type := Text;
                                  name := "custom";
                                  theme := None;
                                  unique_identifier := "item-0" |};
               order := 0 |})
    ≠ ["title"; "type"; "source"; "order"]
  ∧ signals (events (slot (SimpleHost.host ["service_manager"])
                       get_service_items_requested
                       (SimpleHost.world SimpleHost.three_items)))
    = [PDicts [[("error",
                 VStr "'Service service_manager not found in list'")]]]
  ∧ PDicts [[("error", VStr "'Service service_manager not found in list'")]]
    ≠ PDicts [].
Proof.
  split; [vm_compute; reflexivity|].
  split; [vm_compute; intros Hk; discriminate Hk|].
  split; [vm_compute; reflexivity|].
  intros Hk; discriminate Hk.
Qed.

End Scenarios.

(** ** The general statements at concrete inputs *)

Module Instances.
Import Py Host MCPWorker Props.






Lemma get_service_items_result_witness :
  signals (events (get_service_items (SimpleHost.host [])
                     (SimpleHost.world SimpleHost.three_items)))
  = [PDicts (item_record (SimpleHost.host [])
             <$> SimpleHost.items SimpleHost.three_items)].
Proof.
  pose proof (WorkerFacts.get_service_items_result (SimpleHost.host [])
                (SimpleHost.world SimpleHost.three_items)) as Hx.
  cbv zeta in Hx. destruct Hx as (_ & _ & Hl & _).
  exact (proj1 (Hl (SimpleHost.items SimpleHost.three_items)
                  eq_refl eq_refl)).
Defined.


Lemma clear_item_theme_is_set_none_witness :
  events (set_item_theme (SimpleHost.host []) 99 None
            (SimpleHost.world SimpleHost.three_items))
  = [EvAsk (import_ "openlp.core.common.registry");
     EvAsk (registry_get "service_manager");
     EvAsk service_items;
     EvSignal (PStr ("Invalid item index: " +:+ str_of_int 99))].
Proof.
  pose proof (WorkerFacts.clear_item_theme_is_set_none (SimpleHost.host [])
                99 (SimpleHost.world SimpleHost.three_items)) as Hx.
  cbv zeta in Hx. destruct Hx as (_ & _ & _ & _ & _ & Hl).
  exact (Hl (SimpleHost.items SimpleHost.three_items)
           eq_refl eq_refl eq_refl eq_refl).
Defined.

End Instances.

(** ** Names for downloads *)

Module UrlFacts.
Import Py Host MCPWorker UrlUtils.

Lemma append_empty s : EmptyString +:+ s = s.
Proof. reflexivity. Qed.

Lemma append_cons c a b : String c a +:+ b = String c (a +:+ b).
Proof. reflexivity. Qed.

Lemma append_assoc a b c : (a +:+ b) +:+ c = a +:+ b +:+ c.
Proof.
  induction a as [|x a IH]; [reflexivity|].
  rewrite !append_cons, IH. reflexivity.
Qed.

Lemma prefix_empty s : String.prefix EmptyString s = true.
Proof. destruct s; reflexivity. Qed.

Lemma prefix_char c d s :
  String.prefix (String c EmptyString) (String d s) = Ascii.eqb c d.
Proof.
  simpl. destruct (ascii_dec c d) as [->|Hn].
  - rewrite prefix_empty, Ascii.eqb_refl. reflexivity.
  - symmetry. apply Ascii.eqb_neq. exact Hn.
Qed.

Lemma contains_char c d s :
  contains (String c EmptyString) (String d s)
  = (Ascii.eqb c d || contains (String c EmptyString) s)%bool.
Proof.
  cbn [contains]. rewrite prefix_char. destruct (Ascii.eqb c d); reflexivity.
Qed.

Lemma split_head c s rest :
  contains (String c EmptyString) s = false →
  split (String c EmptyString) (s +:+ String c rest)
  = s :: split (String c EmptyString) rest.
Proof.
  unfold split. induction s as [|d s IH]; intros Hc.
  - rewrite append_empty. cbn [split_aux].
    rewrite prefix_char, Ascii.eqb_refl. reflexivity.
  - rewrite contains_char in Hc. apply orb_false_iff in Hc.
    destruct Hc as [Hd Hc].
    rewrite append_cons. cbn [split_aux].
    rewrite prefix_char, Hd, (IH Hc). reflexivity.
Qed.

Lemma split_whole c s :
  contains (String c EmptyString) s = false →
  split (String c EmptyString) s = [s].
Proof.
  unfold split. induction s as [|d s IH]; intros Hc; [reflexivity|].
  rewrite contains_char in Hc. apply orb_false_iff in Hc.
  destruct Hc as [Hd Hc].
  cbn [split_aux]. rewrite prefix_char, Hd, (IH Hc). reflexivity.
Qed.

Lemma map_get_value d k v : map_get d k = Some v → v ∈ d.*2.
Proof.
  induction d as [|[k' v'] d IH]; simpl; [discriminate|].
  destruct (String.eqb k' k).
  - intros [= ->]. apply list_elem_of_here.
  - intros Hg. apply list_elem_of_further, IH, Hg.
Qed.

Lemma contains_append_r needle a b :
  contains needle b = true → contains needle (a +:+ b) = true.
Proof.
  intros Hb. induction a as [|c a IH]; [exact Hb|].
  rewrite append_cons. cbn [contains]. rewrite IH.
  destruct (String.prefix needle _); reflexivity.
Qed.

(** The extensions [get_extension_from_content_type] can return. *)
Lemma content_type_extension_listed content_type :
  get_extension_from_content_type content_type
  ∈ ".tmp" :: content_type_map.*2.
Proof.
  unfold get_extension_from_content_type.
  destruct content_type as [ct|]; [|apply list_elem_of_here].
  destruct (negb (nonempty ct)); [apply list_elem_of_here|].
  destruct (map_get content_type_map _) as [v|] eqn:Hg; simpl.
  - apply list_elem_of_further. exact (map_get_value _ _ _ Hg).
  - apply list_elem_of_here.
Qed.

(** A content type followed by parameters ([; charset=...]) gives the
    extension of the content type alone, and blanks around the content
    type do not count. *)
Theorem content_type_parameters_are_ignored
    (content_type parameters : string) :
  contains ";" content_type = false →
  get_extension_from_content_type
    (Some (content_type +:+ ";" +:+ parameters))
  = get_extension_from_content_type (Some content_type)
  ∧ get_extension_from_content_type (Some content_type)
    = default ".tmp" (map_get content_type_map (strip content_type)).
Proof.
  intros Hc.
  assert (get_extension_from_content_type (Some content_type)
          = default ".tmp" (map_get content_type_map (strip content_type)))
    as Hplain.
  { unfold get_extension_from_content_type.
    destruct content_type as [|c s]; [reflexivity|].
    cbn [nonempty String.eqb negb]. rewrite (split_whole _ _ Hc).
    reflexivity. }
  split; [|exact Hplain]. rewrite Hplain.
  unfold get_extension_from_content_type.
  assert (nonempty (content_type +:+ ";" +:+ parameters) = true) as ->.
  { destruct content_type; reflexivity. }
  cbn [negb].
  change (content_type +:+ ";" +:+ parameters)
    with (content_type +:+ String ";" parameters).
  rewrite (split_head _ _ _ Hc). reflexivity.
Qed.

(** Every extension chosen from a content type is one [add_media]
    routes to a handler, except [.tmp], [.osz] and [.pptm]; these three
    are in none of the four sets, and [.pptm] is the extension of the
    macro-enabled PowerPoint content type. *)
Theorem content_type_extensions_and_add_media
    (content_type : option string) :
  (get_extension_from_content_type content_type
   ∈ [".tmp"; ".osz"; ".pptm"]
   ∨ get_extension_from_content_type content_type
     ∈ (image_extensions ++ video_extensions ++ audio_extensions
        ++ presentation_extensions)%list)
  ∧ (∀ extension,
       extension ∈ [".tmp"; ".osz"; ".pptm"] →
       extension ∉ (image_extensions ++ video_extensions
                    ++ audio_extensions ++ presentation_extensions)%list)
  ∧ get_extension_from_content_type
      (Some "application/vnd.ms-powerpoint.presentation.macroEnabled.12")
    = ".pptm".
Proof.
  split; [|split; [|reflexivity]].
  - pose proof (content_type_extension_listed content_type) as Hin.
    revert Hin. generalize (get_extension_from_content_type content_type).
    intros e He.
    assert (Forall (λ e, e ∈ [".tmp"; ".osz"; ".pptm"]
                         ∨ e ∈ (image_extensions ++ video_extensions
                                ++ audio_extensions
                                ++ presentation_extensions)%list)
              (".tmp" :: content_type_map.*2)) as Hall.
    { cbn. repeat (constructor;
                   [first [ left; apply WorkerFacts.mem_true;
                            vm_compute; reflexivity
                          | right; apply WorkerFacts.mem_true;
                            vm_compute; reflexivity ]|]).
      constructor. }
    exact (proj1 (Forall_forall _ _) Hall e He).
  - intros e He.
    rewrite ?elem_of_cons, elem_of_nil in He.
    destruct He as [-> | [-> | [-> | []]]];
      apply WorkerFacts.mem_false; vm_compute; reflexivity.
Qed.

(** The extensions [guess_extension_from_url_patterns] can return. *)
Lemma guessed_extension_listed urlparse url extension :
  guess_extension_from_url_patterns urlparse url = Ok extension →
  extension ∈ [".jpg"; ".mp4"; ".mp3"; ".pdf"; ".osz"; ".tmp"].
Proof.
  unfold guess_extension_from_url_patterns.
  repeat match goal with
         | |- context [if ?b then _ else _] => destruct b
         | |- context [match urlparse ?u with _ => _ end] =>
             destruct (urlparse u)
         end;
    intros [= <-]; rewrite ?elem_of_cons; tauto.
Qed.

(** A guess from the patterns of a URL is one of six extensions, none
    of them a PowerPoint one; the guess fails only when no keyword
    occurs in the URL and [urlparse] raises, and a keyword in the URL
    settles the guess without [urlparse]. *)
Theorem guessed_extensions (urlparse : string → Outcome ParseResult)
    (url : string) :
  let keywords :=
    ["image"; "photo"; "pic"; "img"; "video"; "vid"; "movie"; "audio";
     "sound"; "music"; "presentation"; "slide"; "ppt"; "service"; "osz"] in
  match guess_extension_from_url_patterns urlparse url with
  | Ok extension =>
      extension ∈ [".jpg"; ".mp4"; ".mp3"; ".pdf"; ".osz"; ".tmp"]
      ∧ mem extension powerpoint_extensions = false
  | Raise e =>
      urlparse url = Raise e ∧ any_in keywords (lower url) = false
  end
  ∧ (any_in keywords (lower url) = true →
     ∀ urlparse',
       guess_extension_from_url_patterns urlparse' url
       = guess_extension_from_url_patterns urlparse url).
Proof.
  intros keywords. split.
  - destruct (guess_extension_from_url_patterns urlparse url)
      as [extension|e] eqn:Hg.
    + pose proof (guessed_extension_listed _ _ _ Hg) as Hin.
      split; [exact Hin|].
      rewrite ?elem_of_cons, elem_of_nil in Hin.
      destruct Hin as [-> | [-> | [-> | [-> | [-> | [-> | []]]]]]];
        reflexivity.
    + revert Hg. unfold guess_extension_from_url_patterns, keywords, any_in.
      cbn [existsb].
      repeat match goal with
             | |- context [contains ?k (lower url)] =>
                 destruct (contains k (lower url)); cbn [orb existsb]
             end; try discriminate.
      destruct (urlparse url) as [parsed|e']; [|intros [= ->]; tauto].
      repeat match goal with
             | |- context [if ?b then _ else _] => destruct b
             end; discriminate.
  - unfold guess_extension_from_url_patterns, keywords, any_in.
    cbn [existsb].
    repeat match goal with
           | |- context [contains ?k (lower url)] =>
               destruct (contains k (lower url)); cbn [orb existsb]
           end; try reflexivity.
    intros Hk. discriminate Hk.
Qed.

(** A URL whose path ends in a file name with a dot in it is
    downloaded under that name: neither the content type nor the
    patterns nor [hash] are consulted. *)
Theorem url_file_name_is_kept (urlparse : string → Outcome ParseResult)
    (url : string) (parsed : ParseResult) :
  urlparse url = Ok parsed →
  contains "." (path_name (path parsed)) = true →
  ∀ get_content_type_from_url hash,
    get_filename_from_url urlparse get_content_type_from_url hash url
    = path_name (path parsed).
Proof.
  intros Hp Hdot ct hash. unfold get_filename_from_url.
  rewrite Hp, Hdot.
  destruct (path_name (path parsed)); [discriminate Hdot|reflexivity].
Qed.

Lemma dotted_contains extension :
  extension ∈ ".tmp" :: content_type_map.*2
              ++ [".jpg"; ".mp4"; ".mp3"; ".pdf"; ".osz"; ".tmp"] →
  contains "." extension = true.
Proof.
  revert extension. apply Forall_forall. cbn.
  repeat (constructor; [reflexivity|]). constructor.
Qed.

(** [get_filename_from_url] always returns a name with a dot in it.
    When [urlparse] raises the name is [download_N.tmp]; when the path
    of the URL has no file name, the name is a kind, an underscore, a
    number and an extension.  The number is [hash(url) % 10000], which
    lies between 0 and 9999. *)
Theorem download_name_has_extension
    (urlparse : string → Outcome ParseResult)
    (get_content_type_from_url : string → option string)
    (hash : string → Z) (url : string) :
  let name :=
    get_filename_from_url urlparse get_content_type_from_url hash url in
  contains "." name = true
  ∧ (∀ e, urlparse url = Raise e →
          name = "download_" +:+ str_of_int (hash url mod 10000) +:+ ".tmp")
  ∧ (∀ parsed,
       urlparse url = Ok parsed →
       path_name (path parsed) = EmptyString →
       ∃ kind extension,
         kind ∈ ["image"; "video"; "audio"; "presentation"; "service";
                 "download"]
         ∧ name = kind +:+ "_" +:+ str_of_int (hash url mod 10000)
                  +:+ extension)
  ∧ 0 ≤ hash url mod 10000 < 10000.
Proof.
  intros name. subst name.
  split; [|split; [|split]].
  - unfold get_filename_from_url.
    destruct (urlparse url) as [parsed|e] eqn:Hp;
      [|apply contains_append_r; reflexivity].
    destruct (nonempty _ && contains "." _)%bool eqn:Hd.
    { apply andb_true_iff in Hd. exact (proj2 Hd). }
    pose proof (content_type_extension_listed
                  (get_content_type_from_url url)) as Hct.
    destruct (String.eqb _ ".tmp").
    + destruct (guess_extension_from_url_patterns urlparse url)
        as [extension|e] eqn:Hg;
        [|apply contains_append_r; reflexivity].
      apply contains_append_r, dotted_contains.
      apply list_elem_of_further, elem_of_app. right.
      exact (guessed_extension_listed _ _ _ Hg).
    + apply contains_append_r, dotted_contains.
      rewrite app_comm_cons. apply elem_of_app. left. exact Hct.
  - intros e Hp. unfold get_filename_from_url. rewrite Hp.
    unfold numbered. rewrite ?append_assoc; reflexivity.
  - intros parsed Hp Hn. unfold get_filename_from_url.
    rewrite Hp, Hn. cbn [nonempty String.eqb negb andb].
    assert (∀ extension, ∃ kind,
              kind ∈ ["image"; "video"; "audio"; "presentation";
                      "service"; "download"]
              ∧ base_name_for hash extension url
                = kind +:+ "_" +:+ str_of_int (hash url mod 10000))
      as Hbase.
    { intros extension. unfold base_name_for, numbered.
      repeat match goal with
             | |- context [if ?b then _ else _] => destruct b
             end;
        eexists; (split; [|reflexivity]); rewrite ?elem_of_cons; tauto. }
    destruct (String.eqb _ ".tmp").
    + destruct (guess_extension_from_url_patterns urlparse url)
        as [extension|e].
      * destruct (Hbase extension) as (kind & Hk & ->).
        exists kind, extension. split; [exact Hk|].
        rewrite ?append_assoc; reflexivity.
      * exists "download", ".tmp".
        split; [rewrite ?elem_of_cons; tauto|].
        unfold numbered. rewrite ?append_assoc; reflexivity.
    + destruct (Hbase (get_extension_from_content_type
                         (get_content_type_from_url url)))
        as (kind & Hk & ->).
      eexists kind, _. split; [exact Hk|].
      rewrite ?append_assoc; reflexivity.
  - apply Z.mod_pos_bound. lia.
Qed.








End UrlFacts.

(** ** What the slots leave alone *)

Module QuietFacts.
Import Py Host MCPWorker Props Effects WorkerFacts.

Section WithHost.
Context {H : Type} (host : Host H).















End WithHost.



Section Lookups.
Context {H : Type} (host : Host H).



End Lookups.

End QuietFacts.

(** ** Locators and the service file *)

Module LocatorFacts.
Import Py Host MCPWorker Props Effects WorkerFacts.

(** Membership in an explicit list of commands. *)
Ltac listed Hin :=
  rewrite ?elem_of_cons, elem_of_nil in Hin;
  repeat match type of Hin with
         | _ ∨ _ => destruct Hin as [Hin | Hin]
         end;
  try discriminate Hin; try contradiction.

(** Membership in the commands of a run that starts with the events
    of a piece of code left symbolic. *)
Ltac spread Hin :=
  rewrite ?commands_app in Hin; cbn [commands omap list_omap] in Hin;
  rewrite ?elem_of_app, ?elem_of_cons, ?elem_of_nil in Hin;
  repeat match type of Hin with
         | _ ∨ _ => destruct Hin as [Hin | Hin]
         end;
  try discriminate Hin; try contradiction.

Section WithHost.
Context {H : Type} (host : Host H).

Lemma is_url_nonempty s : is_url s = true → nonempty s = true.
Proof. destruct s; [discriminate|reflexivity]. Qed.


(** A URL is downloaded into the directory [openlp_mcp_downloads] of
    the temporary directory, under the name chosen for it, and the
    result is the path written.  Once the download has been attempted,
    resolving either returns that path or raises with a text that
    starts with "Failed to download", the URL and a colon (or with the
    fault of the check whether a partial file exists); the partial file
    is removed only after a failure, and only at the path of the
    download. *)
Theorem resolve_download (url : string) (w : World H) :
  is_url url = true →
  let r := resolve_file_path host url w in
  (∀ p, outcome r = Ok p →
     ∃ tmp filename,
       ask host gettempdir (app w) = Ok tmp
       ∧ p = path_join (path_join tmp "openlp_mcp_downloads") filename
       ∧ commands (events r)
         = [mkdir (path_join tmp "openlp_mcp_downloads");
            download_file url p])
  ∧ (∀ source p, download_file source p ∈ commands (events r) →
       source = url
       ∧ (outcome r = Ok p
          ∨ (∃ cause,
               outcome r
               = Raise ("Failed to download " +:+ url +:+ ": " +:+ cause))
          ∨ ∃ a e, ask host (path_exists p) a = Raise e
                   ∧ outcome r = Raise e))
  ∧ (∀ p, unlink p ∈ commands (events r) →
       download_file url p ∈ commands (events r)
       ∧ ∃ e, outcome r = Raise e)
  ∧ self (after r) = self w.
Proof.
  intros Hu r. subst r. unfold resolve_file_path.
  rewrite Hu, (is_url_nonempty _ Hu). cbn [negb]. execute.
  all: split;
    [intros p Hp; facts; try (eexists _, _; repeat split; reflexivity)|].
  all: split;
    [intros source p Hin; listed Hin; inversion Hin; subst;
     (split; [reflexivity|idtac]);
     first [ left; reflexivity
           | right; left; eexists; reflexivity
           | right; right; eexists _, _; split; [eassumption|reflexivity] ]|].
  all: split;
    [intros p Hin; listed Hin; inversion Hin; subst;
     (split; [rewrite ?elem_of_cons; tauto|eexists; reflexivity])|].
  all: reflexivity.
Qed.

(** The commands [resolve_file_path] can execute. *)
Lemma resolve_commands file_path (w : World H) c :
  c ∈ commands (events (resolve_file_path host file_path w)) →
  (∃ p, c = mkdir p) ∨ (∃ u p, c = download_file u p)
  ∨ (∃ p, c = unlink p).
Proof.
  unfold resolve_file_path.
  destruct (negb (nonempty file_path));
    [intros Hin; cbn in Hin; listed Hin|].
  destruct (is_url file_path); execute.
  all: intros Hin; listed Hin; subst; eauto.
Qed.

(** [load_service] hands the service manager the path the locator
    resolves to, and nothing else: when the resolution raises, no file
    is loaded and the answer is the fault behind "Error loading
    service: ".  A local locator is therefore loaded only under its
    own name, after the file system has reported that it exists. *)
Theorem load_service_loads_the_resolved_path (file_path : string)
    (w : World H) :
  let r := load_service host file_path w in
  outcome r = Ok tt
  ∧ (∀ p, load_file p ∈ commands (events r) →
       outcome (resolve_file_path host file_path w) = Ok p)
  ∧ (∀ e, outcome (resolve_file_path host file_path w) = Raise e →
       signals (events r) = [PStr ("Error loading service: " +:+ e)]
       ∧ ∀ p, load_file p ∉ commands (events r)).
Proof.
  intros r.
  split; [apply guarded_total|].
  pose proof (resolve_commands file_path w) as Hrc.
  pose proof (silent_resolve_file_path host file_path w) as Hs.
  subst r. unfold load_service, try_except, bind.
  destruct (resolve_file_path host file_path w)
    as [[resolved|e] w' es] eqn:Hr; cbn [outcome events] in *.
  - execute.
    all: split; [|intros e' He'; discriminate He'].
    all: intros p Hin; spread Hin.
    all: try (apply Hrc in Hin;
              destruct Hin as [[? Hc]|[(? & ? & Hc)|[? Hc]]];
              discriminate Hc).
    all: inversion Hin; reflexivity.
  - execute. split.
    + intros p Hin; spread Hin. apply Hrc in Hin.
      destruct Hin as [[? Hc]|[(? & ? & Hc)|[? Hc]]]; discriminate Hc.
    + intros e' [= <-]. rewrite signals_app, Hs. split; [reflexivity|].
      intros p Hin; spread Hin. apply Hrc in Hin.
      destruct Hin as [[? Hc]|[(? & ? & Hc)|[? Hc]]]; discriminate Hc.
Qed.

End WithHost.

End LocatorFacts.

(** ** Themes *)

Module ThemeFacts.
Import Py Host MCPWorker Props Effects WorkerFacts LocatorFacts.

Section WithHost.
Context {H : Type} (host : Host H).

(** [set_theme] assigns the name it is given without asking the theme
    manager whether such a theme exists: the only command it executes
    is the assignment, and when the registry and the assignment do not
    raise, the answer is the confirmation, whatever the name. *)
Theorem set_theme_accepts_any_name (theme_name : string) (w : World H) :
  let r := set_theme host theme_name w in
  outcome r = Ok tt
  ∧ (EvAsk get_theme_names ∉ events r)
  ∧ (∀ c, c ∈ commands (events r) → c = set_service_theme theme_name)
  ∧ (∀ h,
       ask host (registry_get "service_manager") (app w) = Ok tt →
       exec host (set_service_theme theme_name) (app w) = (Ok tt, h) →
       signals (events r)
       = [PStr ("Service theme set to '" +:+ theme_name +:+ "'")]
       ∧ app (after r) = h).
Proof.
  unfold set_theme. execute.
  all: split; [reflexivity|].
  all: split;
    [rewrite ?not_elem_of_cons; repeat split; try discriminate;
     apply not_elem_of_nil|].
  all: split; [intros c Hin; listed Hin; assumption|].
  all: intros h' H1 H2; try discriminate H1; try congruence.
  split; [reflexivity|]. cbn. congruence.
Qed.

(** An empty theme name and the word "none" in any mix of upper and
    lower case are not looked up as themes: [set_item_theme] with such
    a name runs exactly as [clear_item_theme], so a theme that is
    called None cannot be given to an item. *)
Theorem none_clears_the_item_theme (item_index : Z) (theme_name : string)
    (w : World H) :
  theme_name = EmptyString ∨ lower theme_name = "none" →
  slot host (set_item_theme_requested item_index theme_name) w
  = slot host (clear_item_theme_requested item_index) w
  ∧ (EvAsk get_theme_names
     ∉ events (slot host
                 (set_item_theme_requested item_index theme_name) w)).
Proof.
  intros Hn. cbn [slot].
  assert (set_item_theme host item_index (Some theme_name)
          = set_item_theme host item_index None) as ->.
  { unfold set_item_theme.
    assert ((nonempty theme_name
             && negb (String.eqb (lower theme_name) "none"))%bool = false)
      as ->; [|reflexivity].
    destruct Hn as [-> | ->]; [reflexivity|].
    change (negb (String.eqb "none" "none")) with false.
    apply andb_false_r. }
  split.
  - unfold clear_item_theme. symmetry.
    apply (try_except_ok _ _ _ tt), set_item_theme_total.
  - unfold set_item_theme, refresh_if_live, item_at. execute.
    all: rewrite ?not_elem_of_cons; repeat split; try discriminate;
      apply not_elem_of_nil.
Qed.

(** [set_item_theme] updates the theme of an item only at the index it
    is given, only when that index lies within the service, and only
    with no theme or with a name the theme manager lists.  Once the
    update, the repaint and the modified mark have gone through, the
    answer is the confirmation: a fault of the refresh of the live item
    is dropped. *)
Theorem set_item_theme_guards (item_index : Z)
    (theme_name : option string) (w : World H) :
  let r := set_item_theme host item_index theme_name w in
  outcome r = Ok tt
  ∧ (∀ index t,
       service_item_update_theme index t ∈ commands (events r) →
       index = Z.to_nat item_index
       ∧ (∃ items, ask host service_items (app w) = Ok items
                   ∧ valid_index item_index items = true)
       ∧ (t = None
          ∨ ∃ names, t = theme_name
                     ∧ ask host get_theme_names (app w) = Ok names
                     ∧ ∃ n, t = Some n ∧ n ∈ names))
  ∧ (EvAsk (registry_get "live_controller") ∈ events r →
     ∃ rest,
       signals (events r)
       = [PStr ("Item " +:+ str_of_int item_index +:+ " ('" +:+ rest)]).
Proof.
  intros r. split; [apply guarded_total|]. subst r.
  unfold set_item_theme, refresh_if_live, item_at. execute.
  all: split;
    [intros index t Hin; listed Hin; inversion Hin; subst;
     (split; [reflexivity|]);
     (split; [eexists; split; [reflexivity|];
              facts; assumption|])
    |intros Hin; rewrite ?elem_of_cons, elem_of_nil in Hin;
     repeat match type of Hin with
            | _ ∨ _ => destruct Hin as [Hin | Hin]
            end;
     try discriminate Hin; try contradiction;
     eexists; reflexivity].
  all: first [left; reflexivity|right].
  all: eexists; split; [reflexivity|]; split; [reflexivity|].
  all: eexists; split; [reflexivity|].
  all: apply mem_true; facts; assumption.
Qed.

End WithHost.

End ThemeFacts.

(** ** The theme store *)

Module StoreFacts.
Import Py Host MCPWorker Props Effects WorkerFacts LocatorFacts.

Section WithHost.
Context {H : Type} (host : Host H).

(** [duplicate_theme] clones only a theme the theme manager lists, and
    only under a name it does not list yet; the data it clones are the
    source theme's.  A theme is therefore never duplicated onto itself.
    When the source is missing or the new name is taken, no command is
    executed, the host is left as it was, and the answer says which of
    the two it was. *)
Theorem duplicate_theme_guards (existing_theme_name new_theme_name : string)
    (w : World H) :
  let r := duplicate_theme host existing_theme_name new_theme_name w in
  outcome r = Ok tt
  ∧ (∃ s, signals (events r) = [PStr s])
  ∧ (∀ theme_data name,
       clone_theme_data theme_data name ∈ commands (events r) →
       name = new_theme_name
       ∧ existing_theme_name ≠ new_theme_name
       ∧ ask host (get_theme_data existing_theme_name) (app w)
         = Ok theme_data
       ∧ ∃ names, ask host get_theme_names (app w) = Ok names
                  ∧ existing_theme_name ∈ names
                  ∧ new_theme_name ∉ names)
  ∧ (∀ names,
       ask host (import_ "openlp.core.common.registry") (app w) = Ok tt →
       ask host (registry_get "theme_manager") (app w) = Ok tt →
       ask host get_theme_names (app w) = Ok names →
       existing_theme_name ∉ names ∨ new_theme_name ∈ names →
       commands (events r) = []
       ∧ app (after r) = app w
       ∧ signals (events r)
         = [PStr (if mem existing_theme_name names
                  then "Theme '" +:+ new_theme_name +:+ "' already exists"
                  else "Source theme '" +:+ existing_theme_name
                       +:+ "' not found")]).
Proof.
  unfold duplicate_theme. execute.
  all: split; [reflexivity|].
  all: split; [eexists; reflexivity|].
  all: split;
    [intros theme_data name Hin; listed Hin; inversion Hin; subst;
     facts;
     repeat match goal with
            | Hm : mem _ _ = true |- _ => apply mem_true in Hm
            | Hm : mem _ _ = false |- _ => apply mem_false in Hm
            end;
     (split; [reflexivity|]);
     (split; [intros ->; contradiction|]);
     (split; [reflexivity|]);
     eexists; (split; [reflexivity|]); split; assumption|].
  all: intros names H1 H2 H3 Hcase; facts.
  all: repeat match goal with
              | Hm : mem _ _ = true |- _ =>
                  rewrite ?Hm; apply mem_true in Hm
              | Hm : mem _ _ = false |- _ =>
                  rewrite ?Hm; apply mem_false in Hm
              end.
  all: try (exfalso; tauto).
  all: repeat split; reflexivity.
Qed.

End WithHost.

(** *** [update_theme] *)

Lemma has_key_true (d : Dict) k : has_key d k = true → is_Some (dict_get d k).
Proof. unfold has_key. apply bool_decide_eq_true_1. Qed.

Lemma keys_dict_set (d : Dict) k v :
  is_Some (dict_get d k) → keys (dict_set d k v) = keys d.
Proof.
  unfold keys. induction d as [|[k' v'] d IH]; cbn [dict_get dict_set].
  - intros [x Hx]. discriminate Hx.
  - destruct (String.eqb k' k) eqn:Hk.
    + intros _. apply String.eqb_eq in Hk. subst k'. reflexivity.
    + intros Hs. cbn [fmap list_fmap fst]. f_equal. apply IH, Hs.
Qed.

Lemma dict_get_set_other (d : Dict) k v k' :
  k ≠ k' → dict_get (dict_set d k v) k' = dict_get d k'.
Proof.
  intros Hne. induction d as [|[k0 v0] d IH]; cbn [dict_get dict_set].
  - destruct (String.eqb k k') eqn:Hk; [|reflexivity].
    apply String.eqb_eq in Hk. contradiction.
  - destruct (String.eqb k0 k) eqn:Hk; cbn [dict_get].
    + apply String.eqb_eq in Hk. subst k0.
      destruct (String.eqb k k') eqn:Hk'; [|reflexivity].
      apply String.eqb_eq in Hk'. contradiction.
    + rewrite IH. reflexivity.
Qed.

(** The loop of [update_theme] over the updates sets attributes the
    theme already has and creates none: the theme keeps its attribute
    names, every attribute no update names keeps its value, an update
    whose value is [None] changes nothing, and every change it reports
    is an update it was given. *)
Theorem updates_touch_only_named_attributes (theme updates_data : Dict) :
  keys (apply_updates theme updates_data).1 = keys theme
  ∧ (∀ k, k ∉ keys updates_data →
          dict_get (apply_updates theme updates_data).1 k
          = dict_get theme k)
  ∧ (length (apply_updates theme updates_data).2
     ≤ length updates_data)%nat
  ∧ (∀ line, line ∈ (apply_updates theme updates_data).2 →
       ∃ key value, (key, value) ∈ updates_data
                    ∧ value ≠ VNone
                    ∧ is_Some (dict_get theme key)
                    ∧ line = key +:+ ": " +:+ str value).
Proof.
  revert theme.
  induction updates_data as [|[key value] rest IH]; intros theme.
  { cbn. repeat split; [lia|]. intros line Hin.
    apply elem_of_nil in Hin. contradiction. }
  assert (∀ theme',
            keys theme' = keys theme →
            (∀ k, k ≠ key → dict_get theme' k = dict_get theme k) →
            keys (apply_updates theme' rest).1 = keys theme
            ∧ (∀ k, k ∉ keys ((key, value) :: rest) →
                 dict_get (apply_updates theme' rest).1 k
                 = dict_get theme k)
            ∧ (length (apply_updates theme' rest).2 ≤ length rest)%nat
            ∧ (∀ line, line ∈ (apply_updates theme' rest).2 →
                 ∃ key0 value0, (key0, value0) ∈ rest
                                ∧ value0 ≠ VNone
                                ∧ is_Some (dict_get theme' key0)
                                ∧ line = key0 +:+ ": " +:+ str value0))
    as Hstep.
  { intros theme' Hk Hg. destruct (IH theme') as (I1 & I2 & I3 & I4).
    split; [congruence|]. split; [|split; assumption].
    intros k Hnot. unfold keys in Hnot. cbn [fmap list_fmap fst] in Hnot.
    apply not_elem_of_cons in Hnot. destruct Hnot as [Hne Hnot].
    rewrite (I2 k Hnot). apply Hg, Hne. }
  assert (∀ key0, is_Some (dict_get theme key0) ↔ key0 ∈ keys theme)
    as Hkeys.
  { clear. intros key0. unfold keys.
    induction theme as [|[k v] d IHd]; cbn [dict_get fmap list_fmap fst].
    - split; [intros [x Hx]; discriminate Hx|].
      intros Hin. apply elem_of_nil in Hin. contradiction.
    - destruct (String.eqb k key0) eqn:Hk.
      + apply String.eqb_eq in Hk. subst k.
        split; [intros _; apply list_elem_of_here|eauto].
      + rewrite IHd, elem_of_cons. apply String.eqb_neq in Hk.
        split; [tauto|]. intros [Heq|Hin]; [congruence|exact Hin]. }
  assert (∀ theme' key0,
            keys theme' = keys theme →
            is_Some (dict_get theme' key0) → is_Some (dict_get theme key0))
    as Hsame.
  { intros theme' key0 Hk Hs. apply Hkeys. rewrite <- Hk.
    clear -Hs. unfold keys.
    induction theme' as [|[k v] d IHd]; cbn [dict_get fmap list_fmap fst] in *.
    - destruct Hs as [x Hx]. discriminate Hx.
    - destruct (String.eqb k key0) eqn:Hk.
      + apply String.eqb_eq in Hk. subst k. apply list_elem_of_here.
      + apply list_elem_of_further, IHd, Hs. }
  assert (∀ P : Dict * list string → Prop,
            (value = VNone → P (apply_updates theme rest)) →
            (value ≠ VNone → has_key theme key = false →
             P (apply_updates theme rest)) →
            (value ≠ VNone → has_key theme key = true →
             P ((apply_updates (dict_set theme key value) rest).1,
                (key +:+ ": " +:+ str value)
                :: (apply_updates (dict_set theme key value) rest).2)) →
            P (apply_updates theme ((key, value) :: rest))) as Hcases.
  { intros P P1 P2 P3. cbn [apply_updates].
    destruct (has_key theme key) eqn:Hh.
    - destruct value; [apply P1; reflexivity| | |];
        (destruct (apply_updates (dict_set theme key _) rest) as [t u];
         apply P3; [discriminate|reflexivity]).
    - destruct value; [apply P1; reflexivity| | |];
        (apply P2; [discriminate|reflexivity]). }
  apply Hcases.
  - intros _. destruct (Hstep theme eq_refl (λ _ _, eq_refl))
      as (S1 & S2 & S3 & S4).
    split; [exact S1|]. split; [exact S2|].
    split; [cbn [length]; lia|].
    intros line Hin. destruct (S4 line Hin) as (k0 & v0 & Hm & Hv & Hs & ->).
    exists k0, v0. split; [apply list_elem_of_further, Hm|].
    repeat split; assumption.
  - intros _ _. destruct (Hstep theme eq_refl (λ _ _, eq_refl))
      as (S1 & S2 & S3 & S4).
    split; [exact S1|]. split; [exact S2|].
    split; [cbn [length]; lia|].
    intros line Hin. destruct (S4 line Hin) as (k0 & v0 & Hm & Hv & Hs & ->).
    exists k0, v0. split; [apply list_elem_of_further, Hm|].
    repeat split; assumption.
  - intros Hv Hh. apply has_key_true in Hh.
    destruct (Hstep (dict_set theme key value)
                (keys_dict_set _ _ _ Hh)
                (λ k Hne, dict_get_set_other theme key value k
                            (λ Heq, Hne (eq_sym Heq))))
      as (S1 & S2 & S3 & S4).
    cbn [fst snd].
    split; [exact S1|]. split; [exact S2|].
    split; [cbn [length]; lia|].
    intros line Hin. apply elem_of_cons in Hin.
    destruct Hin as [-> | Hin].
    + exists key, value. split; [apply list_elem_of_here|].
      repeat split; assumption.
    + destruct (S4 line Hin) as (k0 & v0 & Hm & Hv0 & Hs & ->).
      exists k0, v0. split; [apply list_elem_of_further, Hm|].
      split; [exact Hv0|]. split; [|reflexivity].
      exact (Hsame _ _ (keys_dict_set _ _ _ Hh) Hs).
Qed.

End StoreFacts.

(** ** Creating a theme *)

Module CreateFacts.
Import Py Host MCPWorker Props Effects WorkerFacts LocatorFacts.

(** Symbolic execution that also splits on dictionary look-ups. *)
Ltac look_up :=
  match goal with
  | |- context [match dict_get ?d ?k with _ => _ end] =>
      destruct (dict_get d k) eqn:?
  end; reduce.

Ltac execute_all := reduce; repeat first [branch | look_up].

(** A command of the locator resolution is none of the theme
    manager's. *)
Ltac not_resolving Hrc Hin :=
  apply Hrc in Hin;
  destruct Hin as [[? Hin]|[(? & ? & Hin)|[? Hin]]]; discriminate Hin.

Section WithHost.
Context {H : Type} (host : Host H).

Lemma resolve_val_commands v (w : World H) c :
  c ∈ commands (events (resolve_val host v w)) →
  (∃ p, c = mkdir p) ∨ (∃ u p, c = download_file u p)
  ∨ (∃ p, c = unlink p).
Proof.
  destruct v; cbn [resolve_val];
    try (intros Hin; cbn in Hin; listed Hin).
  apply resolve_commands.
Qed.

Lemma silent_resolve_val v : silent (resolve_val host v).
Proof.
  destruct v; cbn [resolve_val]; try apply silent_raise.
  apply silent_resolve_file_path.
Qed.

Lemma val_is_unique v a b :
  val_is v a = true → val_is v b = true → a = b.
Proof.
  destruct v; cbn [val_is]; try discriminate.
  intros Ha Hb. apply String.eqb_eq in Ha, Hb. congruence.
Qed.

(** [create_theme] saves a theme only under a name the theme manager
    does not list yet; what it saves is that name, the background
    attributes and the font attributes of the request.  A background
    type other than solid, gradient and image (with a path) sets no
    background attribute at all.  For a name that is listed no command
    is executed, the host is left as it was, and the answer says that
    the theme exists. *)
Theorem create_theme_saves_a_new_theme (theme_data : Dict) (w : World H) :
  let r := create_theme host theme_data w in
  let background_type :=
    get_or theme_data "background_type" (VStr "solid") in
  outcome r = Ok tt
  ∧ (∀ theme, save_theme theme ∈ commands (events r) →
       ∃ name names background,
         dict_get theme_data "theme_name" = Some name
         ∧ ask host get_theme_names (app w) = Ok names
         ∧ val_in name names = false
         ∧ theme = ("theme_name", name)
                   :: (background ++ theme_fonts theme_data)%list
         ∧ (val_is background_type "solid" = false →
            val_is background_type "gradient" = false →
            (val_is background_type "image"
             && truthy (get_or theme_data "background_image_path" VNone))%bool
            = false →
            background = []))
  ∧ (∀ name names,
       dict_get theme_data "theme_name" = Some name →
       ask host (import_ "openlp.core.lib.theme") (app w) = Ok tt →
       ask host (import_ "openlp.core.common.registry") (app w) = Ok tt →
       ask host (registry_get "theme_manager") (app w) = Ok tt →
       ask host get_theme_names (app w) = Ok names →
       val_in name names = true →
       commands (events r) = []
       ∧ app (after r) = app w
       ∧ signals (events r)
         = [PStr ("Theme '" +:+ str name +:+ "' already exists")]).
Proof.
  intros r background_type. split; [apply guarded_total|]. subst r.
  unfold create_theme, theme_background, dict_item.
  fold background_type.
  execute_all.
  all: try match goal with
           | |- context [resolve_val host ?v ?w0] =>
               pose proof (resolve_val_commands v w0) as Hrc;
               destruct (resolve_val host v w0) as [[p|e0] w' es];
               cbn [events] in Hrc; execute_all
           end.
  all: split;
    [|intros name names H1 H2 H3 H4 H5 H6;
      first [congruence | repeat split; congruence]].
  all: intros theme Hin; spread Hin.
  all: try (not_resolving Hrc Hin).
  all: match type of Hin with
       | _ = save_theme (_ :: theme_fonts _) => eexists _, _, []
       | _ = save_theme (_ :: ?a :: ?b :: theme_fonts _) =>
           eexists _, _, [a; b]
       | _ = save_theme (_ :: ?a :: ?b :: ?c :: theme_fonts _) =>
           eexists _, _, [a; b; c]
       | _ = save_theme (_ :: ?a :: ?b :: ?c :: ?d :: theme_fonts _) =>
           eexists _, _, [a; b; c; d]
       end.
  all: inversion Hin; subst.
  all: split; [reflexivity|]; split; [reflexivity|].
  all: split; [assumption|]; split; [reflexivity|].
  all: intros B1 B2 B3; try reflexivity; congruence.
Qed.

(** When the background image of a new theme cannot be resolved (a
    download that fails, a local file that is missing), [create_theme]
    saves no theme, and once the name has been found free the answer
    names the image and the fault. *)
Theorem create_theme_needs_its_background_image (theme_data : Dict)
    (w : World H) (image_path : Val) (e : string) :
  let r := create_theme host theme_data w in
  val_is (get_or theme_data "background_type" (VStr "solid")) "image"
  = true →
  dict_get theme_data "background_image_path" = Some image_path →
  truthy image_path = true →
  outcome (resolve_val host image_path w) = Raise e →
  (∀ theme, save_theme theme ∉ commands (events r))
  ∧ (∀ name names,
       dict_get theme_data "theme_name" = Some name →
       ask host (import_ "openlp.core.lib.theme") (app w) = Ok tt →
       ask host (import_ "openlp.core.common.registry") (app w) = Ok tt →
       ask host (registry_get "theme_manager") (app w) = Ok tt →
       ask host get_theme_names (app w) = Ok names →
       val_in name names = false →
       signals (events r)
       = [PStr ("Error downloading background image from "
                +:+ str image_path +:+ ": " +:+ e)]).
Proof.
  intros r Himage Hpath Htruthy Hfault. subst r.
  assert (get_or theme_data "background_image_path" VNone = image_path)
    as Hget by (unfold get_or; rewrite Hpath; reflexivity).
  assert (val_is (get_or theme_data "background_type" (VStr "solid"))
            "solid" = false) as Hsolid.
  { apply not_true_is_false. intros Hs.
    pose proof (val_is_unique _ _ _ Himage Hs) as Hx. discriminate Hx. }
  assert (val_is (get_or theme_data "background_type" (VStr "solid"))
            "gradient" = false) as Hgradient.
  { apply not_true_is_false. intros Hs.
    pose proof (val_is_unique _ _ _ Himage Hs) as Hx. discriminate Hx. }
  pose proof (resolve_val_commands image_path w) as Hrc.
  pose proof (silent_resolve_val image_path w) as Hs.
  unfold create_theme, theme_background, dict_item.
  rewrite Hget, Himage, Htruthy, Hsolid, Hgradient, Hpath.
  cbn [andb]. execute_all.
  all: try match goal with
           | |- context [resolve_val host ?v ?w0] =>
               destruct (resolve_val host v w0) as [[p|e0] w' es];
               cbn [events outcome] in Hrc, Hs, Hfault;
               [discriminate Hfault|]; execute_all
           end.
  all: split;
    [intros theme Hin; spread Hin; try (not_resolving Hrc Hin)
    |intros name names H1 H2 H3 H4 H5 H6; try congruence].
  all: change (omap _ ?l) with (signals l); rewrite !signals_app, Hs.
  all: cbn; congruence.
Qed.

End WithHost.

End CreateFacts.

(** ** Updating a theme *)

Module UpdateFacts.
Import Py Host MCPWorker Props Effects WorkerFacts LocatorFacts StoreFacts
  CreateFacts.

Lemma apply_updates_other (updates_data : Dict) :
  ∀ theme k,
    k ∉ keys updates_data →
    dict_get (apply_updates theme updates_data).1 k = dict_get theme k.
Proof.
  induction updates_data as [|[key value] rest IH]; intros theme k Hk;
    [reflexivity|].
  unfold keys in Hk. cbn [fmap list_fmap fst] in Hk.
  apply not_elem_of_cons in Hk. destruct Hk as [Hne Hk].
  cbn [apply_updates].
  assert (dict_get (apply_updates (dict_set theme key value) rest).1 k
          = dict_get theme k) as Hset.
  { rewrite (IH _ _ Hk). apply dict_get_set_other. congruence. }
  destruct (has_key theme key);
    destruct value; try apply (IH _ _ Hk);
    destruct (apply_updates (dict_set theme key _) rest); exact Hset.
Qed.

Lemma keys_filter_other (d : Dict) (name k : string) :
  k ∉ keys d → k ∉ keys (filter (λ kv, kv.1 ≠ name) d).
Proof.
  unfold keys. intros Hk Hin. apply Hk.
  apply list_elem_of_fmap in Hin. destruct Hin as ([k' v] & -> & Hin).
  apply list_elem_of_filter in Hin. destruct Hin as [_ Hin].
  apply list_elem_of_fmap. exists (k', v). split; [reflexivity|exact Hin].
Qed.

Section WithHost.
Context {H : Type} (host : Host H).

(** [update_theme] saves only a theme the theme manager has, and in
    what it saves every attribute the updates do not name has the
    value it had (the two attributes of the background image apart,
    which a background image path sets).  Without any update nothing
    is executed and the answer says that no valid property was
    given. *)
Theorem update_theme_keeps_the_rest (theme_data : UpdateData)
    (w : World H) :
  let r := update_theme host theme_data w in
  outcome r = Ok tt
  ∧ (∀ saved, save_theme saved ∈ commands (events r) →
       ∃ theme,
         ask host (get_theme_data (ud_theme_name theme_data)) (app w)
         = Ok (Some theme)
         ∧ ∀ k, k ∉ keys (ud_updates theme_data) →
                k ∉ ["background_source"; "background_filename"] →
                dict_get saved k = dict_get theme k)
  ∧ (ud_updates theme_data = [] →
     commands (events r) = []
     ∧ ∀ theme,
         ask host (import_ "openlp.core.common.registry") (app w) = Ok tt →
         ask host (registry_get "theme_manager") (app w) = Ok tt →
         ask host (get_theme_data (ud_theme_name theme_data)) (app w)
         = Ok (Some theme) →
         signals (events r)
         = [PStr ("No valid properties provided to update for theme '"
                  +:+ ud_theme_name theme_data +:+ "'")]).
Proof.
  intros r. split; [apply guarded_total|]. subst r. split.
  - unfold update_theme. execute.
    all: try match goal with
             | |- context [resolve_val host ?v ?w0] =>
                 pose proof (resolve_val_commands host v w0) as Hrc;
                 destruct (resolve_val host v w0) as [[p|e0] w' es];
                 cbn [events] in Hrc; execute
             end.
    all: repeat match goal with
                | |- context [let '(_, _) := apply_updates ?t ?u in _] =>
                    let Hu := fresh "Hu" in
                    pose proof (apply_updates_other u t) as Hu;
                    destruct (apply_updates t u) as [theme2 applied];
                    cbn [fst] in Hu; execute
                end.
    all: intros saved Hin; spread Hin; try (not_resolving Hrc Hin).
    all: inversion Hin; subst; eexists; (split; [reflexivity|]).
    all: intros k Hk Hbg.
    all: rewrite Hu by (try apply keys_filter_other; exact Hk).
    all: try reflexivity.
    all: apply not_elem_of_cons in Hbg; destruct Hbg as [Hb1 Hbg].
    all: apply not_elem_of_cons in Hbg; destruct Hbg as [Hb2 _].
    all: rewrite !dict_get_set_other by congruence; reflexivity.
  - intros Hnone. unfold update_theme. rewrite Hnone.
    change (has_key [] "background_image_path") with false.
    cbn [andb apply_updates app]. change (bool_decide ([] ≠ [])) with false.
    execute.
    all: split; [reflexivity|].
    all: intros theme0 H1 H2 H3; try congruence.
    all: try discriminate.
    all: reflexivity.
Qed.

End WithHost.

End UpdateFacts.

(** ** The pages of the python-pptx fallback *)

Module FallbackFacts.
Import Py Fallback.

Lemma draw_lines_app (l1 l2 : list string) (y : Z) :
  draw_lines (l1 ++ l2) y
  = ((draw_lines l1 y).1 ++ (draw_lines l2 (draw_lines l1 y).2).1,
     (draw_lines l2 (draw_lines l1 y).2).2)%list.
Proof.
  revert y. induction l1 as [|line rest IH]; intros y; cbn [app draw_lines].
  - cbn. destruct (draw_lines l2 y); reflexivity.
  - destruct (nonempty (strip line) && Z.ltb 50 y)%bool; [|apply IH].
    rewrite IH. destruct (draw_lines rest (y - 20)) as [calls y1].
    reflexivity.
Qed.

Lemma draw_shapes_lines (slide : Slide) (y : Z) :
  draw_shapes slide y = draw_lines (all_lines slide) y.
Proof.
  unfold all_lines. revert y.
  induction slide as [|[text|] rest IH]; intros y; cbn [draw_shapes];
    [reflexivity| |rewrite IH; reflexivity].
  rewrite bind_cons.
  destruct (nonempty (strip text)); [|rewrite IH; reflexivity].
  rewrite draw_lines_app.
  destruct (draw_lines (split nl (strip text)) y) as [calls y1].
  cbn [fst snd]. rewrite IH.
  destruct (draw_lines _ y1) as [calls' y2]. reflexivity.
Qed.

Lemma draw_lines_filter (lines : list string) (y : Z) :
  draw_lines (filter (λ line, nonempty (strip line)) lines) y
  = draw_lines lines y.
Proof.
  revert y. induction lines as [|line rest IH]; intros y; [reflexivity|].
  rewrite filter_cons. cbn [draw_lines].
  destruct (nonempty (strip line)) eqn:Hn.
  - rewrite decide_True by exact I. cbn [draw_lines]. rewrite Hn, !IH.
    reflexivity.
  - rewrite decide_False by (intros []). cbn [andb]. apply IH.
Qed.

Lemma room_full (height : Z) : (height - 100 ≤ 50)%Z → room height = 0%nat.
Proof.
  intros Hy. unfold room.
  assert ((height - 131) / 20 < 1)%Z by (apply Z.div_lt_upper_bound; lia).
  lia.
Qed.

Lemma room_next (height : Z) :
  (50 < height - 100)%Z → room height = S (room (height - 20)).
Proof.
  intros Hy. unfold room.
  replace (height - 131) with ((height - 20 - 131) + 1 * 20) by lia.
  rewrite Z.div_add by lia.
  assert (0 ≤ (height - 20 - 131) / 20)%Z by (apply Z.div_pos; lia).
  lia.
Qed.

Lemma draw_lines_full (lines : list string) (y : Z) :
  (y ≤ 50)%Z → (draw_lines lines y).1 = [].
Proof.
  intros Hy. induction lines as [|line rest IH]; [reflexivity|].
  cbn [draw_lines]. replace (Z.ltb 50 y) with false by (symmetry; lia).
  rewrite andb_false_r. exact IH.
Qed.

Lemma draw_lines_layout (lines : list string) (height : Z) :
  Forall (λ line, nonempty (strip line) = true) lines →
  (draw_lines lines (height - 100)).1
  = imap (line_at (height - 100)) (take (room height) lines).
Proof.
  intros Hl. revert height.
  induction Hl as [|line rest Hn _ IH]; intros height.
  { rewrite take_nil. reflexivity. }
  destruct (Z.ltb_spec 50 (height - 100)) as [Hy|Hy].
  - cbn [draw_lines]. rewrite Hn.
    replace (Z.ltb 50 (height - 100)) with true by (symmetry; lia).
    cbn [andb]. rewrite (room_next _ Hy). cbn [take]. rewrite imap_cons.
    replace (height - 100 - 20) with (height - 20 - 100) by lia.
    specialize (IH (height - 20)).
    destruct (draw_lines rest (height - 20 - 100)) as [calls y1].
    cbn [fst] in *. rewrite IH. f_equal.
    + unfold line_at. f_equal. lia.
    + apply imap_ext. intros k x _. unfold line_at; cbn. f_equal. lia.
  - rewrite (draw_lines_full _ _ Hy), (room_full _ Hy). reflexivity.
Qed.

(** The fallback PDF has one page for every slide of the deck, in
    order, and is saved after the last one.  A page shows the number
    of the slide and, below it, the first lines of the slide only: the
    lines of its text that are not blank, in order, each cut after 80
    characters, 20 points apart from [height - 100] down, and no more
    than fit above 50; the lines beyond are left out.  On a page of
    height 792 (letter) these are 33 lines. *)
Theorem fallback_page_layout (height : Z) (slides : list Slide) :
  draw height slides
  = (concat
       (imap (λ i slide,
                drawString 50 (height - 50)
                  ("Slide " +:+ str_of_int (Z.of_nat i + 1))
                :: imap (line_at (height - 100))
                     (take (room height) (text_lines slide))
                ++ [showPage])
          slides)
     ++ [save])%list
  ∧ room 792 = 33%nat.
Proof.
  split; [|reflexivity].
  unfold draw. f_equal. f_equal. apply imap_ext. intros i slide _.
  unfold draw_slide, text_lines.
  rewrite draw_shapes_lines, <- draw_lines_filter, draw_lines_layout;
    [reflexivity|].
  apply Forall_forall. intros line Hin.
  apply list_elem_of_filter in Hin. destruct Hin as [Hn _].
  apply Is_true_true_1, Hn.
Qed.

End FallbackFacts.

(** ** From the slot back to the tool *)

Module RoundTrip.
Import Py Host MCPWorker Bridge Props Effects WorkerFacts.

Section WithHost.
Context {H : Type} (host : Host H).

Lemma records_ret {A} (a : A) : records (ret (H:=H) a).
Proof. intros w; split; reflexivity. Qed.

Lemma records_raise {A} e : records (raise (H:=H) (A:=A) e).
Proof. intros w; split; reflexivity. Qed.

Lemma records_query q : records (query host q).
Proof. intros w; split; reflexivity. Qed.

Lemma records_call c : records (call host c).
Proof.
  intros w. unfold call. destruct (exec host c (app w)); split; reflexivity.
Qed.

Lemma records_emit p : records (emit (H:=H) p).
Proof. intros w; split; reflexivity. Qed.

Lemma records_get_self : records (get_self (H:=H)).
Proof. intros w; split; reflexivity. Qed.

Lemma records_set_pending_conversion_title t :
  records (set_pending_conversion_title (H:=H) t).
Proof. intros w; split; reflexivity. Qed.

Lemma records_set_conversion_thread t :
  records (set_conversion_thread (H:=H) t).
Proof. intros w; split; reflexivity. Qed.

Lemma records_set_conversion_worker k :
  records (set_conversion_worker (H:=H) k).
Proof. intros w; split; reflexivity. Qed.

Lemma records_after {B} (w w' : World H) (es : list Ev) (r : Run H B) :
  match last (signals es) with
  | Some p => current_result (self w') = Some p
              ∧ result_ready (self w') = true
  | None => current_result (self w') = current_result (self w)
            ∧ result_ready (self w') = result_ready (self w)
  end →
  match last (signals (events r)) with
  | Some p => current_result (self (after r)) = Some p
              ∧ result_ready (self (after r)) = true
  | None => current_result (self (after r)) = current_result (self w')
            ∧ result_ready (self (after r)) = result_ready (self w')
  end →
  match last (signals (events (preceded es r))) with
  | Some p => current_result (self (after (preceded es r))) = Some p
              ∧ result_ready (self (after (preceded es r))) = true
  | None =>
      current_result (self (after (preceded es r)))
      = current_result (self w)
      ∧ result_ready (self (after (preceded es r)))
        = result_ready (self w)
  end.
Proof.
  intros H1 H2.
  rewrite events_preceded, after_preceded, signals_app, last_app.
  destruct (last (signals (events r))); [exact H2|].
  destruct (last (signals es)); destruct H1, H2; split; congruence.
Qed.

Lemma records_bind {A B} (m : @M H A) (f : A → @M H B) :
  records m → (∀ a, records (f a)) → records (bind m f).
Proof.
  intros Hm Hf w. unfold bind. specialize (Hm w).
  destruct (m w) as [[a|e] w' es]; cbn [events after] in *; [|exact Hm].
  apply (records_after w w'); [exact Hm|apply Hf].
Qed.

Lemma records_try {A} (body : @M H A) handler :
  records body → (∀ e, records (handler e)) →
  records (try_except body handler).
Proof.
  intros Hb Hh w. unfold try_except. specialize (Hb w).
  destruct (body w) as [[a|e] w' es]; cbn [events after] in *; [exact Hb|].
  apply (records_after w w'); [exact Hb|apply Hh].
Qed.

Lemma records_for_each {A} (xs : list A) (body : A → @M H unit) :
  (∀ x, records (body x)) → records (for_each xs body).
Proof.
  intros Hb. induction xs as [|x xs IH]; simpl.
  - apply records_ret.
  - apply records_bind; [apply Hb | intros _; exact IH].
Qed.

End WithHost.

Ltac recording :=
  repeat first
    [ apply records_ret | apply records_raise | apply records_emit
    | apply records_get_self
    | apply records_set_pending_conversion_title
    | apply records_set_conversion_thread
    | apply records_set_conversion_worker
    | match goal with
      | |- records (query ?h ?q) => exact (records_query h q)
      | |- records (call ?h ?c) => exact (records_call h c)
      end
    | apply records_for_each; intros
    | apply records_try; [|intros]
    | apply records_bind; [|intros]
    | match goal with
      | |- context [if ?b then _ else _] => destruct b
      | |- context [match ?x with _ => _ end] => destruct x
      end ].

Section Slots.
Context {H : Type} (host : Host H).

Lemma records_resolve_file_path file_path :
  records (resolve_file_path host file_path).
Proof. unfold resolve_file_path, try_pass. recording. Qed.

Lemma records_resolve_val v : records (resolve_val host v).
Proof.
  destruct v; cbn [resolve_val]; try apply records_raise.
  apply records_resolve_file_path.
Qed.

Lemma records_add_pdf_presentation file_path title :
  records (_add_pdf_presentation host file_path title).
Proof.
  unfold _add_pdf_presentation, plugin_available, probe_slide_count,
    add_slide, try_pass.
  recording.
Qed.

Lemma records_cleanup : records (_cleanup_conversion_thread host).
Proof. unfold _cleanup_conversion_thread. recording. Qed.

Lemma records_create_song_placeholder title lyrics :
  records (_create_song_placeholder host title lyrics).
Proof. unfold _create_song_placeholder. recording. Qed.

Lemma records_set_item_theme item_index theme_name :
  records (set_item_theme host item_index theme_name).
Proof.
  unfold set_item_theme, refresh_if_live, item_at, try_pass. recording.
Qed.

(** Every slot stores what it emits. *)
Lemma records_slot (m : Msg) : records (slot host m).
Proof.
  destruct m; cbn [slot].
  - unfold create_service. recording.
  - unfold load_service.
    apply records_try; [|intros; apply records_emit].
    apply records_bind; [apply records_resolve_file_path|intros].
    recording.
  - unfold save_service. recording.
  - unfold get_service_items. recording.
  - unfold add_song, plugin_available.
    apply records_try; [|intros; apply records_emit].
    apply records_bind; [recording|intros available].
    destruct (negb available); [apply records_emit|].
    do 2 (apply records_bind; [recording|intros]).
    destruct a0 as [|song rest].
    + apply records_bind;
        [apply records_create_song_placeholder|intros; apply records_emit].
    + apply records_try.
      * do 5 (apply records_bind; [recording|intros]).
        apply records_bind; [recording|intros generated].
        destruct generated; [recording|].
        apply records_bind;
          [apply records_create_song_placeholder
          |intros; apply records_emit].
      * intros. apply records_bind;
          [apply records_create_song_placeholder
          |intros; apply records_emit].
  - unfold add_custom_slide. recording.
  - unfold add_media.
    apply records_try; [|intros; apply records_emit].
    apply records_bind; [apply records_resolve_file_path|intros].
    unfold route_media.
    destruct (mem _ image_extensions);
      [unfold _add_image, plugin_available; recording|].
    destruct (_ || _)%bool;
      [unfold _add_video_audio, plugin_available; recording|].
    destruct (mem _ presentation_extensions); [|apply records_emit].
    unfold _add_presentation.
    apply records_try; [|intros; apply records_emit].
    destruct (mem _ powerpoint_extensions);
      [|apply records_add_pdf_presentation].
    unfold _start_powerpoint_conversion. recording.
  - unfold go_live. recording.
  - unfold next_slide. recording.
  - unfold previous_slide. recording.
  - unfold list_themes. recording.
  - unfold set_theme. recording.
  - unfold create_theme, theme_background, dict_item.
    apply records_try; [|intros; apply records_emit].
    do 2 (apply records_bind; [recording|intros]).
    apply records_bind; [recording|intros theme_name].
    do 2 (apply records_bind; [recording|intros]).
    destruct (val_in _ _); [apply records_emit|].
    apply records_bind; [|intros [attrs|]; recording].
    destruct (val_is _ "solid"); [apply records_ret|].
    destruct (val_is _ "gradient"); [apply records_ret|].
    destruct (_ && _)%bool; [|apply records_ret].
    apply records_bind; [recording|intros image_path].
    apply records_try; [|intros; recording].
    apply records_bind; [apply records_resolve_val|intros; recording].
  - unfold get_theme_details.
    apply records_try; [|intros; apply records_emit].
    do 3 (apply records_bind; [recording|]; intros).
    destruct a1; [|apply records_emit].
    do 2 (apply records_bind; [unfold attr; recording|]; intros).
    apply records_bind; [|intros; apply records_emit].
    generalize (keys (theme_fonts [])). intros ks.
    induction ks as [|k ks IH]; [apply records_ret|].
    apply records_bind; [unfold attr; recording|]. intros v.
    apply records_bind; [exact IH|]. intros; apply records_ret.
  - unfold update_theme.
    apply records_try; [|intros; apply records_emit].
    do 3 (apply records_bind; [recording|intros]).
    destruct a1 as [theme|]; [|apply records_emit].
    apply records_bind.
    + destruct (_ && _)%bool; [|apply records_ret].
      apply records_try; [|intros; recording].
      apply records_bind; [apply records_resolve_val|intros; recording].
    + intros [[theme1 remaining]|]; [|apply records_ret].
      destruct (apply_updates theme1 remaining) as [theme2 applied].
      destruct (_ || _)%bool; recording.
  - unfold delete_theme. recording.
  - unfold duplicate_theme. recording.
  - apply records_set_item_theme.
  - unfold get_item_theme, item_at, attr. recording.
  - unfold clear_item_theme.
    apply records_try; [|intros; apply records_emit].
    apply records_set_item_theme.
  - unfold _on_conversion_completed.
    apply records_try; [|intros; apply records_emit].
    apply records_bind;
      [apply records_add_pdf_presentation|intros; apply records_cleanup].
  - unfold _on_conversion_failed.
    apply records_bind; [apply records_emit|intros; apply records_cleanup].
Qed.

(** A tool submits its request, clears the flag, and waits; the
    privileged thread then runs the slot.  What the tool returns is
    the last result the slot emitted, whatever was stored before the
    call; when the slot emitted none (a conversion that has only been
    started), the tool has not returned. *)
Theorem tool_returns_the_last_result (m : Msg) (timeout : option nat)
    (wait : MCPToolsManager.Prog MCPToolsManager.Result) (w : World H) :
  wait = MCPToolsManager.wait_for_result timeout
  ∨ wait = MCPToolsManager.wait_for_result_long timeout →
  let st :=
    run host [ServerStep; ServerStep; MainStep; ServerStep; ServerStep]
      (start w (MCPToolsManager.Emit m wait)) in
  let r := slot host m (clear_ready w) in
  log st = events r
  ∧ world st = after r
  ∧ (∀ p, last (signals (events r)) = Some p →
          caller st = MCPToolsManager.Return (Some p))
  ∧ (signals (events r) = [] → ∀ result, caller st ≠ MCPToolsManager.Return result).
Proof.
  intros Hwait st r.
  assert (∃ t message, wait = MCPToolsManager.Clear
                     (MCPToolsManager.Wait t
                        (MCPToolsManager.after_wait message)))
    as (t & message & ->).
  { destruct Hwait as [-> | ->]; eexists _, _; reflexivity. }
  pose proof (records_slot m (clear_ready w)) as Hrec. fold r in Hrec.
  subst st.
  change (run host _ _)
    with (server_step
            (server_step
               {| world := after r; queue := [];
                  caller := MCPToolsManager.Wait t
                              (MCPToolsManager.after_wait message);
                  log := events r |})).
  unfold server_step. cbn [caller world].
  destruct (result_ready (self (after r))) eqn:Hr.
  - cbn. split; [reflexivity|]. split; [reflexivity|]. split.
    + intros p Hp. rewrite Hp in Hrec. destruct Hrec as [Hc _].
      rewrite Hc. reflexivity.
    + intros Hs. rewrite Hs in Hrec. cbn in Hrec.
      destruct Hrec as [_ Hx]. discriminate Hx.
  - assert (last (signals (events r)) = None) as Hnone.
    { destruct (last (signals (events r))); [|reflexivity].
      destruct Hrec as [_ Hx]. discriminate Hx. }
    destruct t; cbn; rewrite ?Hr.
    all: split; [reflexivity|]; split; [reflexivity|].
    all: split; [intros p Hp; congruence|intros _ y; discriminate].
Qed.

End Slots.

End RoundTrip.

(** ** Songs, slide counts and the conversion thread *)

Module ItemFacts.
Import Py Host MCPWorker Props Effects WorkerFacts LocatorFacts.

Section WithHost.
Context {H : Type} (host : Host H).

Lemma texts_slides (l : list string) :
  texts ((λ v, EvExec (add_from_text v)) <$> l) = l.
Proof. induction l as [|v l IH]; [reflexivity|]. cbn. f_equal. exact IH. Qed.

Lemma added_slides (l : list string) :
  added ((λ v, EvExec (add_from_text v)) <$> l) = [].
Proof. induction l as [|v l IH]; [reflexivity|]. exact IH. Qed.

Lemma signals_slides (l : list string) :
  signals ((λ v, EvExec (add_from_text v)) <$> l) = [].
Proof. induction l as [|v l IH]; [reflexivity|]. exact IH. Qed.

(** The loop of [_create_song_placeholder] over the verses. *)
Lemma verse_loop (vs : list string) :
  reliable host →
  ∀ w : World H,
    let r := for_each vs
               (λ verse,
                  if nonempty (strip verse)
                  then call host (add_from_text (strip verse))
                  else ret tt) w in
    outcome r = Ok tt
    ∧ events r
      = (λ v, EvExec (add_from_text v))
        <$> filter (λ v, nonempty v) (strip <$> vs).
Proof.
  intros Hrel. induction vs as [|v vs IH]; intros w; cbv zeta in *;
    [split; reflexivity|].
  cbn [for_each]. unfold bind.
  rewrite fmap_cons, filter_cons.
  destruct (nonempty (strip v)) eqn:Hn.
  - rewrite decide_True by exact I.
    destruct (exec host (add_from_text (strip v)) (app w))
      as [[u|e] h] eqn:He.
    + assert (call host (add_from_text (strip v)) w
              = {| outcome := Ok u;
                   after := {| self := self w; app := h |};
                   events := [EvExec (add_from_text (strip v))] |}) as ->
        by (unfold call; rewrite He; reflexivity).
      rewrite outcome_preceded, events_preceded.
      destruct (IH {| self := self w; app := h |}) as [Ho Hev].
      rewrite Ho, Hev. split; reflexivity.
    + exfalso. apply (proj2 Hrel (add_from_text (strip v)) (app w) e).
      rewrite He. reflexivity.
  - rewrite decide_False by (intros []). change (ret (H:=H) tt w)
      with {| outcome := Ok tt; after := w; events := @nil Ev |}.
    cbv beta iota. rewrite outcome_preceded, events_preceded. apply IH.
Qed.

(** For a title the songs database does not know, [add_song] adds a
    placeholder item of that title: one text slide for every block of
    the lyrics between blank lines, stripped, the blank blocks left out
    (so lyrics that are all blank give an item without slides), or a
    single slide that says the lyrics are not available when no lyrics
    were given.  The author is not used. *)
Theorem add_song_placeholder (title author lyrics : string)
    (w : World H) :
  reliable host →
  ask host (get_plugin_by_name "songs") (app w) = Ok true →
  ask host (plugin_is_active "songs") (app w) = Ok true →
  ask host (songs_get_all_objects title) (app w) = Ok [] →
  let r := add_song host title author lyrics w in
  texts (events r)
  = (if nonempty lyrics then verses lyrics
     else ["Song: " +:+ title +:+ nl +:+ nl +:+ "(Lyrics not available)"])
  ∧ added (events r)
    = [{| ni_plugin := "songs"; ni_title := Some title;
          ni_name := Some "songs"; ni_type := Some Text;
          ni_processor := None; ni_sha256_file_hash := None |}]
  ∧ signals (events r)
    = [PStr ("Song '" +:+ title
             +:+ "' not found in database - added placeholder")].
Proof.
  intros Hrel Hp Ha Hs r. subst r.
  unfold add_song, plugin_available, _create_song_placeholder.
  reduce_monad; sure_with ltac:(fun _ => reduce_monad) Hrel.
  all: try match goal with
           | |- context [for_each ?xs ?body ?w0] =>
               assert (outcome (for_each xs body w0) = Ok tt
                       ∧ events (for_each xs body w0)
                         = (λ v, EvExec (add_from_text v))
                           <$> filter (λ v, nonempty v) (strip <$> xs))
                 as [Ho Hev] by exact (verse_loop xs Hrel w0);
               destruct (for_each xs body w0) as [lo lw les];
               cbn [outcome events] in Ho, Hev; subst lo les
           end.
  all: reduce_monad; sure_with ltac:(fun _ => reduce_monad) Hrel.
  all: unfold texts, added, signals;
    repeat (rewrite ?omap_app; cbn [omap list_omap]).
  all: try (fold (texts ((λ v, EvExec (add_from_text v))
                          <$> filter (λ v, nonempty v)
                                (strip <$> split (nl +:+ nl) lyrics)));
            rewrite texts_slides).
  all: try (fold (added ((λ v, EvExec (add_from_text v))
                          <$> filter (λ v, nonempty v)
                                (strip <$> split (nl +:+ nl) lyrics)));
            rewrite added_slides).
  all: try (fold (signals ((λ v, EvExec (add_from_text v))
                            <$> filter (λ v, nonempty v)
                                  (strip <$> split (nl +:+ nl) lyrics)));
            rewrite signals_slides).
  all: rewrite ?app_nil_r; repeat split; reflexivity.
Qed.

(** The slide count [_add_pdf_presentation] settles on is at least 1,
    whatever the counting methods of the document return or raise;
    the one exception is a document with none of the three methods
    and a negative [slide_count] attribute, whose value is taken as it
    is.  Finding the count emits nothing. *)
Theorem slide_count_is_at_least_one (w : World H) :
  let r := probe_slide_count host w in
  signals (events r) = []
  ∧ ∃ n, outcome r = Ok n
         ∧ ((1 ≤ n)%Z
            ∨ ((n < 0)%Z
               ∧ ask host doc_slide_count (app w) = Ok (Some n)
               ∧ ask host (doc_hasattr "get_slide_count") (app w)
                 = Ok false
               ∧ ask host (doc_hasattr "get_page_count") (app w)
                 = Ok false
               ∧ ask host (doc_hasattr "pageCount") (app w) = Ok false)).
Proof.
  unfold probe_slide_count, positive_or_1. execute.
  all: split; [reflexivity|]; eexists; split; [reflexivity|].
  all: try (left; lia).
  all: match goal with
       | Hz : Z.eqb ?z 0 = false |- _ =>
           apply Z.eqb_neq in Hz;
           destruct (Z.ltb_spec z 0);
           [right; repeat split; [assumption|congruence..]|left; lia]
       end.
Qed.

(** The conversion thread always tries LibreOffice first and falls back
    to python-pptx only when LibreOffice returned no file or a file
    that does not exist.  It reports completion only for a PDF the
    file system has confirmed, and with the title it was given. *)
Theorem conversion_reports_an_existing_pdf (ppt_path : Path)
    (title : string) (w : World H) :
  let r := convert_powerpoint host ppt_path title w in
  (commands (events r) = [convert_with_libreoffice ppt_path]
   ∨ commands (events r) = [convert_with_libreoffice ppt_path;
                            convert_with_python_pptx ppt_path])
  ∧ (convert_with_python_pptx ppt_path ∈ commands (events r) →
     ∃ found h,
       exec host (convert_with_libreoffice ppt_path) (app w)
       = (Ok found, h)
       ∧ (found = None
          ∨ ∃ pdf, found = Some pdf
                   ∧ ask host (path_exists pdf) h = Ok false))
  ∧ (∀ pdf_path t,
       outcome r = Ok (conversion_completed pdf_path t) →
       t = title
       ∧ ask host (path_exists pdf_path) (app (after r)) = Ok true).
Proof.
  unfold convert_powerpoint, _convert_ppt_to_pdf, exists_opt. execute.
  all: split; [first [left; reflexivity|right; reflexivity]|].
  all: split;
    [intros Hin; listed Hin;
     eexists _, _; (split; [reflexivity|]);
     first [left; reflexivity
           |right; eexists; split; [reflexivity|assumption]]
    |intros pdf_path t Ho; inversion Ho; subst;
     (split; [reflexivity|assumption])].
Qed.

End WithHost.

End ItemFacts.

(** ** More general statements at concrete inputs *)

Module MoreInstances.
Import Py Host MCPWorker Props Effects.

Lemma simple_host_reliable : reliable (SimpleHost.host []).
Proof.
  split.
  - intros q a e. destruct q; discriminate.
  - intros c a e. discriminate.
Qed.

Lemma content_type_parameters_are_ignored_witness :
  UrlUtils.get_extension_from_content_type
    (Some ("text/xml" +:+ ";" +:+ " charset=utf-8"))
  = UrlUtils.get_extension_from_content_type (Some "text/xml").
Proof.
  exact (proj1 (UrlFacts.content_type_parameters_are_ignored
                  "text/xml" " charset=utf-8" eq_refl)).
Defined.

Lemma url_file_name_is_kept_witness :
  UrlUtils.get_filename_from_url (λ _, Ok Cases.hymn_url) (λ _, None)
    (λ _, 0) "https://example.org/media/hymn.mp3"
  = path_name "/media/hymn.mp3".
Proof.
  exact (UrlFacts.url_file_name_is_kept (λ _, Ok Cases.hymn_url)
           "https://example.org/media/hymn.mp3" Cases.hymn_url
           eq_refl eq_refl (λ _, None) (λ _, 0)).
Defined.



Lemma resolve_download_witness :
  ∃ tmp filename,
    ask (SimpleHost.host []) gettempdir SimpleHost.empty = Ok tmp
    ∧ "/tmp/openlp_mcp_downloads/a.jpg"
      = path_join (path_join tmp "openlp_mcp_downloads") filename
    ∧ commands (events (resolve_file_path (SimpleHost.host [])
                          "https://example.org/a.jpg"
                          (SimpleHost.world SimpleHost.empty)))
      = [mkdir (path_join tmp "openlp_mcp_downloads");
         download_file "https://example.org/a.jpg"
           "/tmp/openlp_mcp_downloads/a.jpg"].
Proof.
  pose proof (LocatorFacts.resolve_download (SimpleHost.host [])
                "https://example.org/a.jpg"
                (SimpleHost.world SimpleHost.empty) eq_refl) as Hx.
  cbv zeta in Hx. destruct Hx as (Hp & _).
  exact (Hp "/tmp/openlp_mcp_downloads/a.jpg" eq_refl).
Defined.

Lemma load_service_loads_the_resolved_path_witness :
  signals (events (load_service (SimpleHost.host []) "sunday.osz"
                     (SimpleHost.world SimpleHost.empty)))
  = [PStr ("Error loading service: "
           +:+ "Local file not found: sunday.osz")].
Proof.
  pose proof (LocatorFacts.load_service_loads_the_resolved_path
                (SimpleHost.host []) "sunday.osz"
                (SimpleHost.world SimpleHost.empty)) as Hx.
  cbv zeta in Hx. destruct Hx as (_ & _ & He).
  exact (proj1 (He "Local file not found: sunday.osz" eq_refl)).
Defined.

Lemma set_theme_accepts_any_name_witness :
  signals (events (set_theme (SimpleHost.host []) "No such theme"
                     (SimpleHost.world SimpleHost.empty)))
  = [PStr ("Service theme set to '" +:+ "No such theme" +:+ "'")].
Proof.
  pose proof (ThemeFacts.set_theme_accepts_any_name (SimpleHost.host [])
                "No such theme" (SimpleHost.world SimpleHost.empty)) as Hx.
  cbv zeta in Hx. destruct Hx as (_ & _ & _ & Hs).
  exact (proj1 (Hs SimpleHost.empty eq_refl eq_refl)).
Defined.

Lemma none_clears_the_item_theme_witness :
  slot (SimpleHost.host []) (set_item_theme_requested 0 "None")
    (SimpleHost.world SimpleHost.three_items)
  = slot (SimpleHost.host []) (clear_item_theme_requested 0)
      (SimpleHost.world SimpleHost.three_items).
Proof.
  exact (proj1 (ThemeFacts.none_clears_the_item_theme (SimpleHost.host [])
                  0 "None" (SimpleHost.world SimpleHost.three_items)
                  (or_intror eq_refl))).
Defined.

Lemma duplicate_theme_guards_witness :
  commands (events (duplicate_theme (SimpleHost.host []) "Default"
                      "Default" (SimpleHost.world SimpleHost.empty)))
  = []
  ∧ signals (events (duplicate_theme (SimpleHost.host []) "Default"
                       "Default" (SimpleHost.world SimpleHost.empty)))
    = [PStr ("Theme '" +:+ "Default" +:+ "' already exists")].
Proof.
  pose proof (StoreFacts.duplicate_theme_guards (SimpleHost.host [])
                "Default" "Default" (SimpleHost.world SimpleHost.empty))
    as Hx.
  cbv zeta in Hx. destruct Hx as (_ & _ & _ & Hg).
  destruct (Hg ["Default"] eq_refl eq_refl eq_refl
              (or_intror (list_elem_of_here _ _))) as (Hc & _ & Hs).
  split; [exact Hc|exact Hs].
Defined.

Lemma create_theme_saves_a_new_theme_witness :
  commands (events (create_theme (SimpleHost.host [])
                      [("theme_name", VStr "Default")]
                      (SimpleHost.world SimpleHost.empty)))
  = [].
Proof.
  pose proof (CreateFacts.create_theme_saves_a_new_theme
                (SimpleHost.host []) [("theme_name", VStr "Default")]
                (SimpleHost.world SimpleHost.empty)) as Hx.
  cbv zeta in Hx. destruct Hx as (_ & _ & Hl).
  exact (proj1 (Hl (VStr "Default") ["Default"] eq_refl eq_refl eq_refl
                  eq_refl eq_refl eq_refl)).
Defined.

Lemma create_theme_needs_its_background_image_witness :
  signals (events (create_theme (SimpleHost.host []) Cases.dawn
                     (SimpleHost.world SimpleHost.empty)))
  = [PStr ("Error downloading background image from "
           +:+ str (VStr "missing.png") +:+ ": "
           +:+ "Local file not found: missing.png")].
Proof.
  pose proof (CreateFacts.create_theme_needs_its_background_image
                (SimpleHost.host []) Cases.dawn
                (SimpleHost.world SimpleHost.empty) (VStr "missing.png")
                "Local file not found: missing.png"
                eq_refl eq_refl eq_refl eq_refl) as Hx.
  destruct Hx as (_ & Hs).
  exact (Hs (VStr "Dawn") ["Default"] eq_refl eq_refl eq_refl eq_refl
           eq_refl eq_refl).
Defined.

Lemma tool_returns_the_last_result_witness :
  Bridge.caller
    (Bridge.run (SimpleHost.host [])
       [Bridge.ServerStep; Bridge.ServerStep; Bridge.MainStep;
        Bridge.ServerStep; Bridge.ServerStep]
       (Bridge.start (SimpleHost.world SimpleHost.empty)
          MCPToolsManager.list_themes))
  = MCPToolsManager.Return (Some (PStrs ["Default"])).
Proof.
  pose proof (RoundTrip.tool_returns_the_last_result (SimpleHost.host [])
                list_themes_requested None
                (MCPToolsManager.wait_for_result None)
                (SimpleHost.world SimpleHost.empty)
                (or_introl eq_refl)) as Hx.
  cbv zeta in Hx. destruct Hx as (_ & _ & Hr & _).
  exact (Hr (PStrs ["Default"]) eq_refl).
Defined.

Lemma add_song_placeholder_witness :
  texts (events (add_song (SimpleHost.host []) "Amazing Grace"
                   "John Newton" Cases.two_verses
                   (SimpleHost.world SimpleHost.empty)))
  = ["Amazing grace"; "How sweet the sound"].
Proof.
  pose proof (ItemFacts.add_song_placeholder (SimpleHost.host [])
                "Amazing Grace" "John Newton" Cases.two_verses
                (SimpleHost.world SimpleHost.empty)
                simple_host_reliable eq_refl eq_refl eq_refl) as Hx.
  cbv zeta in Hx. destruct Hx as (Ht & _). exact Ht.
Defined.

Lemma conversion_reports_an_existing_pdf_witness :
  ask (SimpleHost.host []) (path_exists "/decks/A.pdf")
    (app (after (convert_powerpoint (SimpleHost.host []) "/decks/A.pptx"
                   "Easter" Cases.with_deck)))
  = Ok true.
Proof.
  pose proof (ItemFacts.conversion_reports_an_existing_pdf
                (SimpleHost.host []) "/decks/A.pptx" "Easter"
                Cases.with_deck)
    as Hx.
  cbv zeta in Hx. destruct Hx as (_ & _ & Hc).
  exact (proj2 (Hc "/decks/A.pdf" "Easter" eq_refl)).
Defined.

Lemma update_theme_keeps_the_rest_witness :
  signals (events (update_theme (SimpleHost.host [])
                     {| ud_theme_name := "Default"; ud_updates := [] |}
                     (SimpleHost.world SimpleHost.empty)))
  = [PStr ("No valid properties provided to update for theme '"
           +:+ "Default" +:+ "'")].
Proof.
  pose proof (UpdateFacts.update_theme_keeps_the_rest (SimpleHost.host [])
                {| ud_theme_name := "Default"; ud_updates := [] |}
                (SimpleHost.world SimpleHost.empty)) as Hx.
  cbv zeta in Hx. destruct Hx as (_ & _ & Hn).
  exact (proj2 (Hn eq_refl) [("theme_name", VStr "Default")]
           eq_refl eq_refl eq_refl).
Defined.

End MoreInstances.
